(** * CouchDB MCP server: dispatcher, connection holder and tool handlers

    A shallow embedding of [couchdb_mcp_server.py].  The Python class
    [CouchDBServer] keeps one mutable field, [self.couch]; every handler
    talks to the [couchdb] driver and turns the reply or the exception into
    a list of text blocks.  The driver, the CouchDB server behind it and the
    two runtime functions [json.dumps] and [str()] are libraries: they are
    taken as interfaces ([Driver], [Python]) and every result below holds
    for all of their implementations, unless a premise says otherwise. *)

From Stdlib Require Import String Ascii List ZArith Bool DecimalString Lia.
Import ListNotations.
Local Open Scope list_scope.
Local Open Scope string_scope.

Set Implicit Arguments.
Set Warnings "-register-all".

(** ** JSON values, as [json.loads] hands them to the program

    Numbers are the integers; the program does no arithmetic on document
    contents.  A [dict] keeps insertion order as Python's does. *)

Inductive json : Type :=
| JNull
| JBool (b : bool)
| JNum (n : Z)
| JStr (s : string)
| JArr (l : list json)
| JObj (d : list (string * json)).

Definition dict := list (string * json).

(** [d.get(k)] with [None] for an absent key as an [option]. *)
Fixpoint dict_get (k : string) (d : dict) : option json :=
  match d with
  | [] => None
  | (k', v) :: d' => if String.eqb k k' then Some v else dict_get k d'
  end.

(** [k in d] *)
Definition dict_mem (k : string) (d : dict) : bool :=
  match dict_get k d with Some _ => true | None => false end.

(** [d[k] = v]: an existing key keeps its place, a new key goes last. *)
Fixpoint dict_set (k : string) (v : json) (d : dict) : dict :=
  match d with
  | [] => [(k, v)]
  | (k', v') :: d' =>
      if String.eqb k k' then (k, v) :: d' else (k', v') :: dict_set k v d'
  end.

(** [{**base, **extra}]: the entries of [extra] are written over [base]
    from left to right. *)
Definition dict_update (base extra : dict) : dict :=
  fold_left (fun acc kv => dict_set (fst kv) (snd kv) acc) extra base.

(** [d.get(k, default)] *)
Definition dict_get_default (k : string) (default : json) (d : dict) : json :=
  match dict_get k d with Some v => v | None => default end.

(** Python's truth value of a JSON value ([if doc_id:], [if warning:]). *)
Definition truthy (v : json) : bool :=
  match v with
  | JNull => false
  | JBool b => b
  | JNum n => negb (Z.eqb n 0)
  | JStr s => negb (String.eqb s "")
  | JArr l => match l with [] => false | _ => true end
  | JObj d => match d with [] => false | _ => true end
  end.

(** [type(v).__name__] *)
Definition type_name (v : json) : string :=
  match v with
  | JNull => "NoneType"
  | JBool _ => "bool"
  | JNum _ => "int"
  | JStr _ => "str"
  | JArr _ => "list"
  | JObj _ => "dict"
  end.

(** [sub] occurs in [s]. *)
Definition contains (sub s : string) : Prop :=
  exists pre post, s = pre ++ sub ++ post.

(** ** Exceptions and results *)

Inductive exn_class : Type :=
| KeyError | TypeError | AttributeError | ValueError | AssertionError
| ConnectionError
| ResourceNotFound | ResourceConflict | PreconditionFailed
| OtherException.

(** An exception: its class (what an [except] clause tests) and [str(e)].
    All classes here derive from [Exception]. *)
Record exn : Type := Exn { exn_cls : exn_class; exn_str : string }.

Inductive outcome (A : Type) : Type :=
| Ok (a : A)
| Raise (e : exn).
Arguments Ok {A} a.
Arguments Raise {A} e.

(** [len(v)] *)
Definition py_len (v : json) : outcome nat :=
  match v with
  | JArr l => Ok (List.length l)
  | JObj d => Ok (List.length d)
  | JStr s => Ok (String.length s)
  | _ => Raise (Exn TypeError
                  ("object of type '" ++ type_name v ++ "' has no len()"))
  end.

(** [{**base, **m}] for an arbitrary value [m]. *)
Definition py_unpack (base : dict) (m : json) : outcome dict :=
  match m with
  | JObj d => Ok (dict_update base d)
  | _ => Raise (Exn TypeError ("'" ++ type_name m ++ "' object is not a mapping"))
  end.

Definition is_str (k : string) (v : json) : bool :=
  match v with JStr s => String.eqb s k | _ => false end.

Definition is_substring (k s : string) : bool :=
  match String.index 0 k s with Some _ => true | None => false end.

(** [k in v] for an arbitrary value [v]. *)
Definition py_in (k : string) (v : json) : outcome bool :=
  match v with
  | JObj d => Ok (dict_mem k d)
  | JArr l => Ok (existsb (is_str k) l)
  | JStr s => Ok (is_substring k s)
  | _ => Raise (Exn TypeError
                  ("argument of type '" ++ type_name v ++ "' is not iterable"))
  end.

(** [v[k] = x] for an arbitrary value [v] and a string key. *)
Definition py_setitem (v : json) (k : string) (x : json) : outcome json :=
  match v with
  | JObj d => Ok (JObj (dict_set k x d))
  | JArr _ => Raise (Exn TypeError "list indices must be integers or slices, not str")
  | _ => Raise (Exn TypeError
                  ("'" ++ type_name v ++ "' object does not support item assignment"))
  end.

(** ** Text blocks *)

Record TextContent : Type := { type : string; text : string }.

Definition text_block (s : string) : TextContent := {| type := "text"; text := s |}.

(** ** The Python runtime: [json.dumps(v, indent=2)] and [repr] *)

Class Python : Type := {
  json_dumps : json -> string;
  repr : json -> string
}.

(** [str(v)], what an f-string writes for [{v}]. *)
Definition py_str `{Python} (v : json) : string :=
  match v with JStr s => s | _ => repr v end.

(** ** The [couchdb] driver *)

(** A [couchdb.Server] object: its identity and the URL it was built from. *)
Record Server : Type := { server_oid : nat; server_url : string }.

(** A [couchdb.Database] object, as [server[name]] returns it. *)
Record Database : Type := { db_server : Server; db_name : json }.

(** A row of a view result. *)
Record Row : Type := { row_id : json; row_key : json; row_value : json; row_doc : json }.

(** The calls the program makes into the driver, in the order it makes them. *)
Inductive request : Type :=
| ReqServer (url : string)
| ReqVersion (s : Server)
| ReqIter (s : Server)
| ReqCreate (s : Server) (name : json)
| ReqDelete (s : Server) (name : json)
| ReqGetitem (s : Server) (name : json)
| ReqSave (db : Database) (doc : json)
| ReqDocGetitem (db : Database) (id : json)
| ReqDocDelete (db : Database) (doc : json)
| ReqFind (db : Database) (mango_query : json)
| ReqPostJson (db : Database) (path : string) (body : json)
| ReqGetJson (db : Database) (path : string)
| ReqView (db : Database) (name : string) (params : dict).

(** The driver over a server whose state is a [W].  Every call may raise.
    [resource_post_json] and [resource_get_json] give the component the
    program reads, [result[1]], a JSON object. *)
Class Driver (W : Type) : Type := {
  server_new : string -> W -> outcome unit * W;
  server_version : Server -> W -> outcome json * W;
  server_iter : Server -> W -> outcome (list json) * W;
  server_create : Server -> json -> W -> outcome unit * W;
  server_delete : Server -> json -> W -> outcome unit * W;
  server_getitem : Server -> json -> W -> outcome unit * W;
  database_save : Database -> json -> W -> outcome (json * json) * W;
  database_getitem : Database -> json -> W -> outcome json * W;
  database_delete : Database -> json -> W -> outcome unit * W;
  database_find : Database -> json -> W -> outcome (list json) * W;
  resource_post_json : Database -> string -> json -> W -> outcome dict * W;
  resource_get_json : Database -> string -> W -> outcome dict * W;
  database_view : Database -> string -> dict -> W -> outcome (list Row) * W
}.

(** ** The running program

    [url] and [couch] are the two fields of the [CouchDBServer] object;
    [next_oid] numbers the driver objects the program creates, [world] is
    the state of the remote server and [log] the driver calls made so far. *)

Record state (W : Type) : Type := {
  url : string;
  couch : option Server;
  next_oid : nat;
  world : W;
  log : list request
}.

(** [CouchDBServer(url)] before any connection attempt. *)
Definition init (W : Type) (u : string) (w : W) : state W :=
  {| url := u; couch := None; next_oid := 0; world := w; log := [] |}.

Section Program.

Context {W : Type} {drv : Driver W} {py : Python}.

(** A computation reads and writes the state and returns or raises. *)
Definition M (A : Type) : Type := state W -> outcome A * state W.

Definition ret {A} (a : A) : M A := fun st => (Ok a, st).

Definition raise {A} (e : exn) : M A := fun st => (Raise e, st).

Definition bind {A B} (m : M A) (k : A -> M B) : M B :=
  fun st =>
    match m st with
    | (Ok a, st') => k a st'
    | (Raise e, st') => (Raise e, st')
    end.

(** [try: body except Exception as e: handler e]; a handler that does not
    name the class re-raises. *)
Definition try_except {A} (body : M A) (handler : exn -> M A) : M A :=
  fun st =>
    match body st with
    | (Ok a, st') => (Ok a, st')
    | (Raise e, st') => handler e st'
    end.

Definition lift {A} (o : outcome A) : M A := fun st => (o, st).

Notation "x <- m ;; k" := (bind m (fun x => k))
  (at level 61, m at next level, right associativity).
Notation "m ;; k" := (bind m (fun _ => k))
  (at level 61, right associativity).

(** One call into the driver: it is logged and the server moves on. *)
Definition call {A} (r : request) (op : W -> outcome A * W) : M A :=
  fun st =>
    let (res, w') := op (world st) in
    (res, {| url := url st; couch := couch st; next_oid := next_oid st;
             world := w'; log := (log st ++ [r])%list |}).

(** [couchdb.Server(self.url)]: a new driver object. *)
Definition new_server : M Server :=
  fun st =>
    let (res, w') := server_new (url st) (world st) in
    let st' := {| url := url st; couch := couch st;
                  next_oid := match res with Ok _ => S (next_oid st) | Raise _ => next_oid st end;
                  world := w'; log := (log st ++ [ReqServer (url st)])%list |} in
    match res with
    | Ok _ => (Ok {| server_oid := next_oid st; server_url := url st |}, st')
    | Raise e => (Raise e, st')
    end.

(** [self.couch = s] *)
Definition set_couch (s : Server) : M unit :=
  fun st => (Ok tt, {| url := url st; couch := Some s; next_oid := next_oid st;
                       world := world st; log := log st |}).

Definition get_couch : M (option Server) := fun st => (Ok (couch st), st).

Definition get_url : M string := fun st => (Ok (url st), st).

(** *** Connection holder *)

Definition connect : M bool :=
  try_except
    (s <- new_server ;;
     set_couch s ;;
     call (ReqVersion s) (server_version s) ;;
     ret true)
    (fun e =>
       u <- get_url ;;
       raise (Exn ConnectionError
                ("Failed to connect to CouchDB at " ++ u ++ ": " ++ exn_str e))).

Definition _get_server : M Server :=
  c <- get_couch ;;
  match c with None => connect ;; ret tt | Some _ => ret tt end ;;
  c' <- get_couch ;;
  match c' with
  | Some s => ret s
  | None => raise (Exn AssertionError "")
  end.

(** [self._get_server()[database]] *)
Definition get_database (database : json) : M Database :=
  s <- _get_server ;;
  call (ReqGetitem s database) (server_getitem s database) ;;
  ret {| db_server := s; db_name := database |}.

(** *** Handlers *)

Definition _list_databases : M (list TextContent) :=
  s <- _get_server ;;
  databases <- call (ReqIter s) (server_iter s) ;;
  let result := JObj [("databases", JArr databases);
                      ("count", JNum (Z.of_nat (List.length databases)))] in
  ret [text_block (json_dumps result)].

Definition _create_database (name : json) : M (list TextContent) :=
  try_except
    (s <- _get_server ;;
     call (ReqCreate s name) (server_create s name) ;;
     ret [text_block ("Database '" ++ py_str name ++ "' created successfully")])
    (fun e =>
       match exn_cls e with
       | PreconditionFailed =>
           ret [text_block ("Database '" ++ py_str name ++ "' already exists")]
       | _ => raise e
       end).

Definition _delete_database (name : json) : M (list TextContent) :=
  try_except
    (s <- _get_server ;;
     call (ReqDelete s name) (server_delete s name) ;;
     ret [text_block ("Database '" ++ py_str name ++ "' deleted successfully")])
    (fun e =>
       match exn_cls e with
       | ResourceNotFound =>
           ret [text_block ("Database '" ++ py_str name ++ "' not found")]
       | _ => raise e
       end).

(** The document [_create_document] hands to [db.save]. *)
Definition create_payload (document doc_id : json) : outcome json :=
  if truthy doc_id then
    match py_unpack [("_id", doc_id)] document with
    | Ok d => Ok (JObj d)
    | Raise e => Raise e
    end
  else Ok document.

Definition _create_document (database document doc_id : json) : M (list TextContent) :=
  try_except
    (db <- get_database database ;;
     payload <- lift (create_payload document doc_id) ;;
     saved <- call (ReqSave db payload) (database_save db payload) ;;
     let result := JObj [("id", fst saved);
                         ("rev", snd saved);
                         ("message", JStr "Document created successfully")] in
     ret [text_block (json_dumps result)])
    (fun e =>
       match exn_cls e with
       | KeyError => ret [text_block ("Database '" ++ py_str database ++ "' not found")]
       | _ => ret [text_block ("Error creating document: " ++ exn_str e)]
       end).

Definition _get_document (database doc_id : json) : M (list TextContent) :=
  try_except
    (db <- get_database database ;;
     doc <- call (ReqDocGetitem db doc_id) (database_getitem db doc_id) ;;
     ret [text_block (json_dumps doc)])
    (fun e =>
       match exn_cls e with
       | KeyError =>
           ret [text_block ("Database '" ++ py_str database ++ "' or document '"
                            ++ py_str doc_id ++ "' not found")]
       | ResourceNotFound =>
           ret [text_block ("Document '" ++ py_str doc_id ++ "' not found")]
       | _ => raise e
       end).

(** The document [_update_document] hands to [db.save]: [doc_id] is written
    into it only when it has no [_id] of its own. *)
Definition update_payload (document doc_id : json) : outcome json :=
  match py_in "_id" document with
  | Ok true => Ok document
  | Ok false => py_setitem document "_id" doc_id
  | Raise e => Raise e
  end.

Definition update_conflict_message : string :=
  "Document update conflict - document was modified, please get the latest revision".

Definition _update_document (database doc_id document : json) : M (list TextContent) :=
  try_except
    (db <- get_database database ;;
     payload <- lift (update_payload document doc_id) ;;
     saved <- call (ReqSave db payload) (database_save db payload) ;;
     let result := JObj [("id", fst saved);
                         ("rev", snd saved);
                         ("message", JStr "Document updated successfully")] in
     ret [text_block (json_dumps result)])
    (fun e =>
       match exn_cls e with
       | KeyError => ret [text_block ("Database '" ++ py_str database ++ "' not found")]
       | ResourceConflict => ret [text_block update_conflict_message]
       | _ => ret [text_block ("Error updating document: " ++ exn_str e)]
       end).

Definition _delete_document (database doc_id rev : json) : M (list TextContent) :=
  try_except
    (db <- get_database database ;;
     let doc := JObj [("_id", doc_id); ("_rev", rev)] in
     call (ReqDocDelete db doc) (database_delete db doc) ;;
     ret [text_block ("Document '" ++ py_str doc_id ++ "' deleted successfully")])
    (fun e =>
       match exn_cls e with
       | KeyError => ret [text_block ("Database '" ++ py_str database ++ "' not found")]
       | ResourceNotFound => ret [text_block ("Document '" ++ py_str doc_id ++ "' not found")]
       | ResourceConflict => ret [text_block "Document delete conflict - revision mismatch"]
       | _ => raise e
       end).

Definition mango_query (query limit skip : json) : json :=
  JObj [("selector", query); ("limit", limit); ("skip", skip)].

Definition no_match_note : string :=
  "No documents matched the query. To verify documents exist, use couchdb_list_documents with include_docs=true".

(** [if len(docs) == 0: response["note"] = ...] *)
Definition add_note (n : nat) (response : dict) : dict :=
  match n with
  | O => dict_set "note" (JStr no_match_note) response
  | S _ => response
  end.

Definition _search_documents_fallback (database query limit skip : json)
  : M (list TextContent) :=
  try_except
    (db <- get_database database ;;
     let q := mango_query query limit skip in
     result1 <- call (ReqPostJson db "_find" q) (resource_post_json db "_find" q) ;;
     let docs := dict_get_default "docs" (JArr []) result1 in
     let warning := dict_get_default "warning" JNull result1 in
     n <- lift (py_len docs) ;;
     let response := [("docs", docs); ("count", JNum (Z.of_nat n))] in
     let response := if truthy warning then dict_set "warning" warning response
                     else response in
     let response := add_note n response in
     ret [text_block (json_dumps (JObj response))])
    (fun e => ret [text_block ("Error in fallback search: " ++ exn_str e)]).

Definition _search_documents (database query limit skip : json) : M (list TextContent) :=
  try_except
    (db <- get_database database ;;
     let q := mango_query query limit skip in
     docs <- call (ReqFind db q) (database_find db q) ;;
     let n := List.length docs in
     let response := [("docs", JArr docs); ("count", JNum (Z.of_nat n))] in
     let response := add_note n response in
     ret [text_block (json_dumps (JObj response))])
    (fun e =>
       match exn_cls e with
       | KeyError => ret [text_block ("Database '" ++ py_str database ++ "' not found")]
       | AttributeError => _search_documents_fallback database query limit skip
       | _ => ret [text_block ("Error searching documents: " ++ exn_str e)]
       end).

Definition view_params (limit include_docs : json) : dict :=
  let params := [("include_docs", include_docs)] in
  match limit with
  | JNull => params
  | _ => dict_set "limit" limit params
  end.

Definition row_entry (include_docs : json) (row : Row) : json :=
  if truthy include_docs then row_doc row
  else JObj [("id", row_id row); ("key", row_key row); ("value", row_value row)].

Definition _list_documents (database limit include_docs : json) : M (list TextContent) :=
  try_except
    (db <- get_database database ;;
     let params := view_params limit include_docs in
     all_docs <- call (ReqView db "_all_docs" params) (database_view db "_all_docs" params) ;;
     let docs := map (row_entry include_docs) all_docs in
     let result := JObj [("documents", JArr docs);
                         ("count", JNum (Z.of_nat (List.length docs)))] in
     ret [text_block (json_dumps result)])
    (fun e =>
       match exn_cls e with
       | KeyError => ret [text_block ("Database '" ++ py_str database ++ "' not found")]
       | _ => ret [text_block ("Error listing documents: " ++ exn_str e)]
       end).

Definition index_spec (fields index_name : json) : dict :=
  let spec := [("index", JObj [("fields", fields)]); ("type", JStr "json")] in
  if truthy index_name then dict_set "name" index_name spec else spec.

Definition _create_index (database fields index_name : json) : M (list TextContent) :=
  try_except
    (db <- get_database database ;;
     let spec := JObj (index_spec fields index_name) in
     result1 <- call (ReqPostJson db "_index" spec) (resource_post_json db "_index" spec) ;;
     let response :=
       JObj [("result", dict_get_default "result" JNull result1);
             ("id", dict_get_default "id" JNull result1);
             ("name", dict_get_default "name" JNull result1);
             ("message", JStr ("Index created successfully on fields: " ++ py_str fields))] in
     ret [text_block (json_dumps response)])
    (fun e =>
       match exn_cls e with
       | KeyError => ret [text_block ("Database '" ++ py_str database ++ "' not found")]
       | _ => ret [text_block ("Error creating index: " ++ exn_str e)]
       end).

Definition _list_indexes (database : json) : M (list TextContent) :=
  try_except
    (db <- get_database database ;;
     result1 <- call (ReqGetJson db "_index") (resource_get_json db "_index") ;;
     let indexes := dict_get_default "indexes" (JArr []) result1 in
     n <- lift (py_len indexes) ;;
     let response :=
       JObj [("indexes", indexes);
             ("count", JNum (Z.of_nat n));
             ("total_rows", dict_get_default "total_rows" JNull result1)] in
     ret [text_block (json_dumps response)])
    (fun e =>
       match exn_cls e with
       | KeyError => ret [text_block ("Database '" ++ py_str database ++ "' not found")]
       | _ => ret [text_block ("Error listing indexes: " ++ exn_str e)]
       end).

(** *** Dispatcher *)

(** [arguments[key]]; a missing key raises [KeyError(key)], whose [str] is
    the quoted key. *)
Definition subscript (arguments : dict) (key : string) : M json :=
  match dict_get key arguments with
  | Some v => ret v
  | None => raise (Exn KeyError ("'" ++ key ++ "'"))
  end.

(** The body of the [try] in [call_tool]; [arguments] is the JSON object
    the protocol delivers. *)
Definition dispatch (name : string) (arguments : dict) : M (list TextContent) :=
  if name =? "couchdb_list_databases" then
    _list_databases
  else if name =? "couchdb_create_database" then
    n <- subscript arguments "name" ;;
    _create_database n
  else if name =? "couchdb_delete_database" then
    n <- subscript arguments "name" ;;
    _delete_database n
  else if name =? "couchdb_create_document" then
    database <- subscript arguments "database" ;;
    document <- subscript arguments "document" ;;
    _create_document database document (dict_get_default "doc_id" JNull arguments)
  else if name =? "couchdb_get_document" then
    database <- subscript arguments "database" ;;
    doc_id <- subscript arguments "doc_id" ;;
    _get_document database doc_id
  else if name =? "couchdb_update_document" then
    database <- subscript arguments "database" ;;
    doc_id <- subscript arguments "doc_id" ;;
    document <- subscript arguments "document" ;;
    _update_document database doc_id document
  else if name =? "couchdb_delete_document" then
    database <- subscript arguments "database" ;;
    doc_id <- subscript arguments "doc_id" ;;
    rev <- subscript arguments "rev" ;;
    _delete_document database doc_id rev
  else if name =? "couchdb_search_documents" then
    database <- subscript arguments "database" ;;
    query <- subscript arguments "query" ;;
    _search_documents database query
      (dict_get_default "limit" (JNum 25) arguments)
      (dict_get_default "skip" (JNum 0) arguments)
  else if name =? "couchdb_list_documents" then
    database <- subscript arguments "database" ;;
    _list_documents database
      (dict_get_default "limit" JNull arguments)
      (dict_get_default "include_docs" (JBool false) arguments)
  else if name =? "couchdb_create_index" then
    database <- subscript arguments "database" ;;
    fields <- subscript arguments "fields" ;;
    _create_index database fields (dict_get_default "index_name" JNull arguments)
  else if name =? "couchdb_list_indexes" then
    database <- subscript arguments "database" ;;
    _list_indexes database
  else
    raise (Exn ValueError ("Unknown tool: " ++ name)).

Definition call_tool (name : string) (arguments : dict) : M (list TextContent) :=
  try_except
    (dispatch name arguments)
    (fun e => ret [text_block ("Error: " ++ exn_str e)]).

(** *** Process: [main] tries to connect once, then tool calls are served
    one at a time. *)

Definition startup : M unit :=
  try_except
    (connect ;; ret tt)
    (fun e =>
       match exn_cls e with
       | ConnectionError => ret tt
       | _ => raise e
       end).

Fixpoint serve (calls : list (string * dict)) : M (list (list TextContent)) :=
  match calls with
  | [] => ret []
  | (name, arguments) :: rest =>
      r <- call_tool name arguments ;;
      rs <- serve rest ;;
      ret (r :: rs)
  end.

Definition main (calls : list (string * dict)) : M (list (list TextContent)) :=
  startup ;; serve calls.

End Program.

Arguments M W A : clear implicits.

(** ** Tool catalog: the names and required arguments [list_tools] declares *)

Record Tool : Type := { tool_name : string; required : list string }.

Definition list_tools : list Tool :=
  [ {| tool_name := "couchdb_list_databases"; required := [] |};
    {| tool_name := "couchdb_create_database"; required := ["name"] |};
    {| tool_name := "couchdb_delete_database"; required := ["name"] |};
    {| tool_name := "couchdb_create_document"; required := ["database"; "document"] |};
    {| tool_name := "couchdb_get_document"; required := ["database"; "doc_id"] |};
    {| tool_name := "couchdb_update_document"; required := ["database"; "doc_id"; "document"] |};
    {| tool_name := "couchdb_delete_document"; required := ["database"; "doc_id"; "rev"] |};
    {| tool_name := "couchdb_search_documents"; required := ["database"; "query"] |};
    {| tool_name := "couchdb_list_documents"; required := ["database"] |};
    {| tool_name := "couchdb_create_index"; required := ["database"; "fields"] |};
    {| tool_name := "couchdb_list_indexes"; required := ["database"] |} ].

Definition in_catalog (name : string) : bool :=
  existsb (fun t => String.eqb name (tool_name t)) list_tools.


(** ** A reference driver: CouchDB in memory

    A small stand-in for the driver and the server behind it, used to run
    the program on concrete inputs.  Documents carry a revision token and a
    save is accepted only with the current one; the reply to a [_find]
    request is scripted. *)

Module MemCouch.

Fixpoint assoc {A : Type} (k : string) (l : list (string * A)) : option A :=
  match l with
  | [] => None
  | (k', v) :: l' => if String.eqb k k' then Some v else assoc k l'
  end.

Fixpoint assoc_set {A : Type} (k : string) (v : A) (l : list (string * A))
  : list (string * A) :=
  match l with
  | [] => [(k, v)]
  | (k', v') :: l' =>
      if String.eqb k k' then (k, v) :: l' else (k', v') :: assoc_set k v l'
  end.

Fixpoint assoc_del {A : Type} (k : string) (l : list (string * A))
  : list (string * A) :=
  match l with
  | [] => []
  | (k', v') :: l' =>
      if String.eqb k k' then l' else (k', v') :: assoc_del k l'
  end.

Record remote : Type := {
  up : bool;                                   (* the server answers *)
  has_find : bool;                             (* the driver has [Database.find] *)
  dbs : list (string * list (string * dict));  (* database -> id -> document *)
  seq : nat;                                   (* update sequence *)
  find_reply : outcome dict                    (* what [POST /db/_find] answers *)
}.

Definition with_dbs (w : remote) (d : list (string * list (string * dict))) : remote :=
  {| up := up w; has_find := has_find w; dbs := d; seq := S (seq w);
     find_reply := find_reply w |}.

Definition digits (n : nat) : string := NilEmpty.string_of_uint (Nat.to_uint n).

Definition refused : exn := Exn OtherException "[Errno 111] Connection refused".
Definition not_found : exn := Exn ResourceNotFound "('not_found', 'missing')".
Definition no_db : exn := Exn ResourceNotFound "('not_found', 'Database does not exist.')".
Definition conflict : exn := Exn ResourceConflict "('conflict', 'Document update conflict.')".
Definition exists_already : exn :=
  Exn PreconditionFailed
      "('file_exists', 'The database could not be created, the file already exists.')".
Definition bad_request : exn := Exn OtherException "('bad_request', 'Invalid request body')".
Definition no_find : exn :=
  Exn AttributeError "'Database' object has no attribute 'find'".

(** Run [k] on the documents of the database [name], if the server is up
    and the database exists. *)
Definition on_db {A : Type} (name : json) (w : remote)
  (k : string -> list (string * dict) -> outcome A * remote) : outcome A * remote :=
  if up w then
    match name with
    | JStr n =>
        match assoc n (dbs w) with
        | Some docs => k n docs
        | None => (Raise no_db, w)
        end
    | _ => (Raise no_db, w)
    end
  else (Raise refused, w).

Definition save (db : Database) (doc : json) (w : remote) : outcome (json * json) * remote :=
  on_db (db_name db) w (fun n docs =>
    match doc with
    | JObj d =>
        let target :=
          match dict_get "_id" d with
          | None => Some ("doc-" ++ digits (seq w))
          | Some (JStr i) => Some i
          | Some _ => None
          end in
        match target with
        | None => (Raise bad_request, w)
        | Some i =>
            let current :=
              match assoc i docs with
              | Some cur => dict_get "_rev" cur
              | None => None
              end in
            let accepted :=
              match current, dict_get "_rev" d with
              | None, None => true
              | Some (JStr r), Some (JStr r') => String.eqb r r'
              | _, _ => false
              end in
            if accepted then
              let rev := JStr (digits (S (seq w)) ++ "-mem") in
              let stored := dict_set "_rev" rev (dict_set "_id" (JStr i) d) in
              (Ok (JStr i, rev), with_dbs w (assoc_set n (assoc_set i stored docs) (dbs w)))
            else (Raise conflict, w)
        end
    | _ => (Raise bad_request, w)
    end).

Definition getitem (db : Database) (id : json) (w : remote) : outcome json * remote :=
  on_db (db_name db) w (fun n docs =>
    match id with
    | JStr i =>
        match assoc i docs with
        | Some d => (Ok (JObj d), w)
        | None => (Raise not_found, w)
        end
    | _ => (Raise not_found, w)
    end).

Definition delete (db : Database) (doc : json) (w : remote) : outcome unit * remote :=
  on_db (db_name db) w (fun n docs =>
    match doc with
    | JObj d =>
        match dict_get "_id" d with
        | Some (JStr i) =>
            match assoc i docs with
            | Some cur =>
                match dict_get "_rev" cur, dict_get "_rev" d with
                | Some (JStr r), Some (JStr r') =>
                    if String.eqb r r'
                    then (Ok tt, with_dbs w (assoc_set n (assoc_del i docs) (dbs w)))
                    else (Raise conflict, w)
                | _, _ => (Raise conflict, w)
                end
            | None => (Raise not_found, w)
            end
        | _ => (Raise not_found, w)
        end
    | _ => (Raise bad_request, w)
    end).

Definition reply_docs (reply : dict) : list json :=
  match dict_get "docs" reply with
  | Some (JArr l) => l
  | _ => []
  end.

Definition post_find (db : Database) (w : remote) : outcome dict * remote :=
  on_db (db_name db) w (fun _ _ => (find_reply w, w)).

(** [Database.find] posts to [_find] and yields the documents of the reply. *)
Definition find (db : Database) (q : json) (w : remote) : outcome (list json) * remote :=
  if has_find w then
    match post_find db w with
    | (Ok reply, w') => (Ok (reply_docs reply), w')
    | (Raise e, w') => (Raise e, w')
    end
  else (Raise no_find, w).

Definition post_json (db : Database) (path : string) (body : json) (w : remote)
  : outcome dict * remote :=
  if String.eqb path "_find" then post_find db w
  else on_db (db_name db) w (fun _ _ =>
         (Ok [("result", JStr "created");
              ("id", JStr "_design/idx");
              ("name", dict_get_default "name" (JStr "idx")
                         match body with JObj d => d | _ => [] end)], w)).

Definition get_json (db : Database) (path : string) (w : remote) : outcome dict * remote :=
  on_db (db_name db) w (fun _ _ =>
    (Ok [("total_rows", JNum 1);
         ("indexes", JArr [JObj [("ddoc", JNull); ("name", JStr "_all_docs");
                                 ("type", JStr "special")]])], w)).

Definition row_of (include_docs : bool) (entry : string * dict) : Row :=
  {| row_id := JStr (fst entry);
     row_key := JStr (fst entry);
     row_value := JObj [("rev", dict_get_default "_rev" JNull (snd entry))];
     row_doc := if include_docs then JObj (snd entry) else JNull |}.

Definition view (db : Database) (name : string) (params : dict) (w : remote)
  : outcome (list Row) * remote :=
  on_db (db_name db) w (fun _ docs =>
    let rows := map (row_of (truthy (dict_get_default "include_docs" JNull params))) docs in
    match dict_get "limit" params with
    | Some (JNum n) => (Ok (firstn (Z.to_nat n) rows), w)
    | _ => (Ok rows, w)
    end).

Definition if_up {A : Type} (w : remote) (r : outcome A * remote) : outcome A * remote :=
  if up w then r else (Raise refused, w).

Definition create (s : Server) (name : json) (w : remote) : outcome unit * remote :=
  if_up w
    match name with
    | JStr n =>
        match assoc n (dbs w) with
        | Some _ => (Raise exists_already, w)
        | None => (Ok tt, with_dbs w (dbs w ++ [(n, [])])%list)
        end
    | _ => (Raise bad_request, w)
    end.

Definition drop (s : Server) (name : json) (w : remote) : outcome unit * remote :=
  if_up w
    match name with
    | JStr n =>
        match assoc n (dbs w) with
        | Some _ => (Ok tt, with_dbs w (assoc_del n (dbs w)))
        | None => (Raise no_db, w)
        end
    | _ => (Raise no_db, w)
    end.

#[global] Instance driver : Driver remote := {|
  server_new := fun _ w => (Ok tt, w);
  server_version := fun _ w => if_up w (Ok (JStr "3.3.3"), w);
  server_iter := fun _ w => if_up w (Ok (map (fun e => JStr (fst e)) (dbs w)), w);
  server_create := create;
  server_delete := drop;
  server_getitem := fun _ name w => on_db name w (fun _ _ => (Ok tt, w));
  database_save := save;
  database_getitem := getitem;
  database_delete := delete;
  database_find := find;
  resource_post_json := post_json;
  resource_get_json := get_json;
  database_view := view
|}.

(** The runtime's two printers, for integers and strings of printable
    ASCII characters: [json.dumps(v, indent=2)] and [repr(v)]. *)

Definition dquote : string := String "034"%char EmptyString.
Definition squote : string := String "039"%char EmptyString.
Definition backslash : string := String "092"%char EmptyString.

Fixpoint escape (q : ascii) (s : string) : string :=
  match s with
  | EmptyString => EmptyString
  | String c s' =>
      if (Ascii.eqb c q || Ascii.eqb c "092"%char)%bool
      then String "092"%char (String c (escape q s'))
      else String c (escape q s')
  end.

Definition quoted (s : string) : string := dquote ++ escape "034"%char s ++ dquote.

Fixpoint spaces (n : nat) : string :=
  match n with
  | O => EmptyString
  | S n' => String " "%char (spaces n')
  end.

Definition newline (level : nat) : string := String "010"%char (spaces (2 * level)).

Definition number (n : Z) : string := NilZero.string_of_int (Z.to_int n).

Fixpoint dumps (level : nat) (v : json) : string :=
  match v with
  | JNull => "null"
  | JBool true => "true"
  | JBool false => "false"
  | JNum n => number n
  | JStr s => quoted s
  | JArr [] => "[]"
  | JArr l =>
      "[" ++ newline (S level)
      ++ (fix items (l : list json) : string :=
            match l with
            | [] => EmptyString
            | x :: l' =>
                dumps (S level) x
                ++ match l' with
                   | [] => EmptyString
                   | _ => "," ++ newline (S level) ++ items l'
                   end
            end) l
      ++ newline level ++ "]"
  | JObj [] => "{}"
  | JObj d =>
      "{" ++ newline (S level)
      ++ (fix members (d : list (string * json)) : string :=
            match d with
            | [] => EmptyString
            | (k, x) :: d' =>
                quoted k ++ ": " ++ dumps (S level) x
                ++ match d' with
                   | [] => EmptyString
                   | _ => "," ++ newline (S level) ++ members d'
                   end
            end) d
      ++ newline level ++ "}"
  end.

Fixpoint py_repr (v : json) : string :=
  match v with
  | JNull => "None"
  | JBool true => "True"
  | JBool false => "False"
  | JNum n => number n
  | JStr s => squote ++ escape "039"%char s ++ squote
  | JArr l =>
      "["
      ++ (fix items (l : list json) : string :=
            match l with
            | [] => EmptyString
            | x :: l' =>
                py_repr x
                ++ match l' with [] => EmptyString | _ => ", " ++ items l' end
            end) l
      ++ "]"
  | JObj d =>
      "{"
      ++ (fix members (d : list (string * json)) : string :=
            match d with
            | [] => EmptyString
            | (k, x) :: d' =>
                squote ++ escape "039"%char k ++ squote ++ ": " ++ py_repr x
                ++ match d' with [] => EmptyString | _ => ", " ++ members d' end
            end) d
      ++ "}"
  end.

#[global] Instance printer : Python := {|
  json_dumps := dumps 0;
  repr := py_repr
|}.

End MemCouch.


(** ** Predicates used in the statements *)

(** A request that builds or probes a server object: what [connect] sends. *)
Definition is_connect (r : request) : bool :=
  match r with
  | ReqServer _ | ReqVersion _ => true
  | _ => false
  end.

Definition quiet (l : list request) : bool :=
  forallb (fun r => negb (is_connect r)) l.

(** No key occurs twice: the list is a Python [dict]. *)
Fixpoint unique_keys (d : dict) : bool :=
  match d with
  | [] => true
  | (k, _) :: d' => negb (dict_mem k d') && unique_keys d'
  end.

(** The response object [_search_documents] builds from the documents the
    driver found. *)
Definition primary_response (docs : list json) : dict :=
  add_note (List.length docs)
    [("docs", JArr docs); ("count", JNum (Z.of_nat (List.length docs)))].

(** The response object [_search_documents_fallback] builds from the reply
    to the raw request, [n] being [len(docs)]. *)
Definition fallback_response (reply : dict) (n : nat) : dict :=
  let docs := dict_get_default "docs" (JArr []) reply in
  let warning := dict_get_default "warning" JNull reply in
  let response := [("docs", docs); ("count", JNum (Z.of_nat n))] in
  add_note n (if truthy warning then dict_set "warning" warning response else response).

(** The state after one more driver call. *)
Definition after_call {W : Type} (st : state W) (r : request) (w : W) : state W :=
  {| url := url st; couch := couch st; next_oid := next_oid st;
     world := w; log := (log st ++ [r])%list |}.

Section Predicates.

Context {W : Type}.

(** [m], started with the handle [s], ends with the handle [s] and sends
    nothing that connects. *)
Definition keeps (s : Server) {A : Type} (m : M W A) : Prop :=
  forall st r st',
    couch st = Some s -> m st = (r, st') ->
    couch st' = Some s /\
    exists l, log st' = (log st ++ l)%list /\ quiet l = true.

(** Whatever [m] returns is one text block. *)
Definition one_block (m : M W (list TextContent)) : Prop :=
  forall st r st', m st = (Ok r, st') -> exists s, r = [text_block s].

(** [m] returns; it never raises. *)
Definition total {A : Type} (m : M W A) : Prop :=
  forall st, exists a st', m st = (Ok a, st').

End Predicates.

(** ** Sample inputs *)

Module Sample.

Definition url0 : string := "http://localhost:5984".

Definition srv : Server := {| server_oid := 0; server_url := url0 |}.

Definition db : Database := {| db_server := srv; db_name := JStr "notes" |}.

(** A server with one database, [notes], that holds one document. *)
Definition stored_note : dict :=
  [("_id", JStr "n1"); ("title", JStr "first"); ("_rev", JStr "1-mem")].

Definition remote0 : MemCouch.remote :=
  {| MemCouch.up := true;
     MemCouch.has_find := true;
     MemCouch.dbs := [("notes", [("n1", stored_note)])];
     MemCouch.seq := 1;
     MemCouch.find_reply := Ok [("docs", JArr [])] |}.

(** The same server behind a driver without [Database.find]. *)
Definition remote_old_driver : MemCouch.remote :=
  {| MemCouch.up := true;
     MemCouch.has_find := false;
     MemCouch.dbs := MemCouch.dbs remote0;
     MemCouch.seq := 1;
     MemCouch.find_reply := MemCouch.find_reply remote0 |}.

(** A server that cannot be reached. *)
Definition remote_down : MemCouch.remote :=
  {| MemCouch.up := false;
     MemCouch.has_find := true;
     MemCouch.dbs := [];
     MemCouch.seq := 0;
     MemCouch.find_reply := Ok [] |}.

Definition index_warning : json :=
  JStr "No matching index found, create an index to optimize query time.".

(** The [_find] reply carries one document and a warning. *)
Definition reply_with_warning : dict :=
  [("docs", JArr [JObj stored_note]); ("bookmark", JStr "nil"); ("warning", index_warning)].

Definition remote_warning (has_find : bool) : MemCouch.remote :=
  {| MemCouch.up := true;
     MemCouch.has_find := has_find;
     MemCouch.dbs := MemCouch.dbs remote0;
     MemCouch.seq := 1;
     MemCouch.find_reply := Ok reply_with_warning |}.


(** The program after a successful connection. *)
Definition connected (w : MemCouch.remote) : state MemCouch.remote :=
  {| url := url0; couch := Some srv; next_oid := 1; world := w; log := [] |}.

Definition search_args : dict :=
  [("database", JStr "notes"); ("query", JObj [("title", JStr "first")])].

(** [create_document] with [doc_id] "a" for a document that has the [_id] "b". *)
Definition create_args_two_ids : dict :=
  [("database", JStr "notes");
   ("document", JObj [("_id", JStr "b"); ("x", JNum 1)]);
   ("doc_id", JStr "a")].

Definition create_args : dict :=
  [("database", JStr "notes");
   ("document", JObj [("x", JNum 1)]);
   ("doc_id", JStr "a")].

(** An update of [n1] with a revision that is not the stored one. *)
Definition stale_update : json :=
  JObj [("title", JStr "second"); ("_rev", JStr "0-old")].

End Sample.

(** ** Further predicates and the choice of the URL *)

(** A request that changes what the server stores.  A raw [POST] writes
    unless it goes to the query endpoint. *)
Definition is_write (r : request) : bool :=
  match r with
  | ReqCreate _ _ | ReqDelete _ _ | ReqSave _ _ | ReqDocDelete _ _ => true
  | ReqPostJson _ path _ => negb (String.eqb path "_find")
  | _ => false
  end.

(** The tools that only read. *)
Definition read_only_tools : list string :=
  ["couchdb_list_databases"; "couchdb_get_document"; "couchdb_search_documents";
   "couchdb_list_documents"; "couchdb_list_indexes"].

(** The requests of [l] that are not part of a connection attempt. *)
Definition data_requests (l : list request) : list request :=
  filter (fun r => negb (is_connect r)) l.

Section Sending.

Context {W : Type}.

(** Every request [m] sends satisfies [P]. *)
Definition sends (P : request -> bool) {A : Type} (m : M W A) : Prop :=
  forall st r st',
    m st = (r, st') ->
    exists l, log st' = (log st ++ l)%list /\ forallb P l = true.

(** [m] sends at most [n] requests besides connection attempts. *)
Definition at_most (n : nat) {A : Type} (m : M W A) : Prop :=
  forall st r st',
    m st = (r, st') ->
    exists l, log st' = (log st ++ l)%list
              /\ List.length (data_requests l) <= n.

End Sending.

Definition default_url : string := "http://localhost:5984".

(** [k in os.environ] and [os.environ[k]] as one lookup. *)
Fixpoint getenv (k : string) (environ : list (string * string)) : option string :=
  match environ with
  | [] => None
  | (k', v) :: rest => if String.eqb k k' then Some v else getenv k rest
  end.

(** The URL [main] of [couchdb_mcp_server.py] connects to: the environment
    variable or the default, overridden by the first command-line argument. *)
Definition server_main_url (argv : list string) (environ : list (string * string))
  : string :=
  let couchdb_url :=
    match getenv "COUCHDB_URL" environ with
    | Some v => v
    | None => default_url
    end in
  if Nat.ltb 1 (List.length argv) then nth 1 argv couchdb_url else couchdb_url.

(** The URL [main] of [test_connection.py] tests. *)
Definition test_main_url (argv : list string) (environ : list (string * string))
  : string :=
  let url := default_url in
  if Nat.ltb 1 (List.length argv) then nth 1 argv url
  else match getenv "COUCHDB_URL" environ with
       | Some v => v
       | None => url
       end.

(** A driver that reports a database it does not know with a [KeyError],
    the class the handlers' "not found" clauses test for; in every other
    respect it is the reference driver. *)
Definition keyed_driver : Driver MemCouch.remote :=
  {| server_new := fun _ w => (Ok tt, w);
     server_version := fun _ w => MemCouch.if_up w (Ok (JStr "3.3.3"), w);
     server_iter := fun _ w =>
       MemCouch.if_up w (Ok (map (fun e => JStr (fst e)) (MemCouch.dbs w)), w);
     server_create := MemCouch.create;
     server_delete := MemCouch.drop;
     server_getitem := fun _ name w =>
       match MemCouch.on_db name w (fun _ _ => (Ok tt, w)) with
       | (Raise e, w') =>
           match exn_cls e with
           | ResourceNotFound => (Raise (Exn KeyError (MemCouch.py_repr name)), w')
           | _ => (Raise e, w')
           end
       | r => r
       end;
     database_save := MemCouch.save;
     database_getitem := MemCouch.getitem;
     database_delete := MemCouch.delete;
     database_find := MemCouch.find;
     resource_post_json := MemCouch.post_json;
     resource_get_json := MemCouch.get_json;
     database_view := MemCouch.view |}.

(** ** Rules for the two invariants of computations *)

Unset Implicit Arguments.

Section Rules.

Context {W : Type} {drv : Driver W} {py : Python}.

Lemma quiet_app (l1 l2 : list request) :
  quiet l1 = true -> quiet l2 = true -> quiet (l1 ++ l2) = true.
Proof.
  unfold quiet. intros H1 H2. rewrite forallb_app, H1, H2. reflexivity.
Qed.

Lemma keeps_ret (s : Server) (A : Type) (a : A) : keeps s (ret (W:=W) a).
Proof.
  intros st r st' Hc H. inversion H; subst. split; [assumption|].
  exists []. rewrite app_nil_r. split; reflexivity.
Qed.

Lemma keeps_raise (s : Server) (A : Type) (e : exn) : keeps s (raise (W:=W) (A:=A) e).
Proof.
  intros st r st' Hc H. inversion H; subst. split; [assumption|].
  exists []. rewrite app_nil_r. split; reflexivity.
Qed.

Lemma keeps_lift (s : Server) (A : Type) (o : outcome A) : keeps s (lift (W:=W) o).
Proof.
  intros st r st' Hc H. inversion H; subst. split; [assumption|].
  exists []. rewrite app_nil_r. split; reflexivity.
Qed.

Lemma keeps_bind (s : Server) (A B : Type) (m : M W A) (k : A -> M W B) :
  keeps s m -> (forall a, keeps s (k a)) -> keeps s (bind m k).
Proof.
  intros Hm Hk st r st' Hc H. unfold bind in H.
  destruct (m st) as [[a|e] st1] eqn:E.
  - destruct (Hm _ _ _ Hc E) as [Hc1 [l1 [Hl1 Hq1]]].
    destruct (Hk a _ _ _ Hc1 H) as [Hc2 [l2 [Hl2 Hq2]]].
    split; [assumption|]. exists (l1 ++ l2)%list.
    rewrite Hl2, Hl1, app_assoc. split; [reflexivity|now apply quiet_app].
  - inversion H; subst. exact (Hm _ _ _ Hc E).
Qed.

Lemma keeps_try (s : Server) (A : Type) (body : M W A) (handler : exn -> M W A) :
  keeps s body -> (forall e, keeps s (handler e)) -> keeps s (try_except body handler).
Proof.
  intros Hm Hk st r st' Hc H. unfold try_except in H.
  destruct (body st) as [[a|e] st1] eqn:E.
  - inversion H; subst. exact (Hm _ _ _ Hc E).
  - destruct (Hm _ _ _ Hc E) as [Hc1 [l1 [Hl1 Hq1]]].
    destruct (Hk e _ _ _ Hc1 H) as [Hc2 [l2 [Hl2 Hq2]]].
    split; [assumption|]. exists (l1 ++ l2)%list.
    rewrite Hl2, Hl1, app_assoc. split; [reflexivity|now apply quiet_app].
Qed.

Lemma keeps_call (s : Server) (A : Type) (r : request) (op : W -> outcome A * W) :
  is_connect r = false -> keeps s (call r op).
Proof.
  intros Hr st res st' Hc H. unfold call in H.
  destruct (op (world st)) as [res' w']. inversion H; subst. simpl.
  split; [assumption|]. exists [r]. split; [reflexivity|].
  unfold quiet. simpl. rewrite Hr. reflexivity.
Qed.

(** With a handle in place [_get_server] hands it out and touches nothing. *)
Lemma get_server_connected (st : state W) (s : Server) :
  couch st = Some s -> _get_server st = (Ok s, st).
Proof.
  intros Hc. unfold _get_server, bind, get_couch, ret. rewrite Hc. simpl.
  rewrite Hc. reflexivity.
Qed.

Lemma keeps_get_server (s : Server) : keeps s _get_server.
Proof.
  intros st r st' Hc H. rewrite (get_server_connected st s Hc) in H.
  inversion H; subst. split; [assumption|].
  exists []. rewrite app_nil_r. split; reflexivity.
Qed.

Lemma keeps_get_database (s : Server) (database : json) : keeps s (get_database database).
Proof.
  unfold get_database.
  apply keeps_bind; [apply keeps_get_server|intros s'].
  apply keeps_bind; [apply keeps_call; reflexivity|intros _]. apply keeps_ret.
Qed.

Lemma keeps_subscript (s : Server) (arguments : dict) (key : string) :
  keeps s (subscript (W:=W) arguments key).
Proof.
  unfold subscript. destruct (dict_get key arguments); [apply keeps_ret|apply keeps_raise].
Qed.

Lemma one_block_ret (s : string) : one_block (ret (W:=W) [text_block s]).
Proof. intros st r st' H. inversion H; subst. now exists s. Qed.

Lemma one_block_raise (e : exn) : one_block (raise (W:=W) e).
Proof. intros st r st' H. discriminate H. Qed.

Lemma one_block_bind (A : Type) (m : M W A) (k : A -> M W (list TextContent)) :
  (forall a, one_block (k a)) -> one_block (bind m k).
Proof.
  intros Hk st r st' H. unfold bind in H.
  destruct (m st) as [[a|e] st1]; [exact (Hk a _ _ _ H)|discriminate H].
Qed.

Lemma one_block_try (body : M W (list TextContent)) (handler : exn -> M W (list TextContent)) :
  one_block body -> (forall e, one_block (handler e)) -> one_block (try_except body handler).
Proof.
  intros Hb Hh st r st' H. unfold try_except in H.
  destruct (body st) as [[a|e] st1] eqn:E.
  - inversion H; subst. exact (Hb _ _ _ E).
  - exact (Hh e _ _ _ H).
Qed.

End Rules.

(** One step of a proof that a handler keeps the handle. *)
Ltac keeps_step :=
  first
    [ apply keeps_ret | apply keeps_raise | apply keeps_lift
    | apply keeps_get_server | apply keeps_get_database | apply keeps_subscript
    | apply keeps_call; reflexivity
    | apply keeps_try; [|intros ?]
    | apply keeps_bind; [|intros ?]
    | match goal with
      | |- keeps _ (match ?x with _ => _ end) => destruct x
      end ].

(** One step of a proof that a handler returns one text block. *)
Ltac one_block_step :=
  first
    [ apply one_block_ret | apply one_block_raise
    | apply one_block_try; [|intros ?]
    | apply one_block_bind; intros ?
    | match goal with
      | |- one_block (match ?x with _ => _ end) => destruct x
      end ].

(** ** Every handler keeps the handle and returns one text block *)

Section Handlers.

Context {W : Type} {drv : Driver W} {py : Python}.

Lemma keeps_handlers (s : Server) :
  keeps s _list_databases /\
  (forall n, keeps s (_create_database n)) /\
  (forall n, keeps s (_delete_database n)) /\
  (forall a b c, keeps s (_create_document a b c)) /\
  (forall a b, keeps s (_get_document a b)) /\
  (forall a b c, keeps s (_update_document a b c)) /\
  (forall a b c, keeps s (_delete_document a b c)) /\
  (forall a b c d, keeps s (_search_documents_fallback a b c d)) /\
  (forall a b c d, keeps s (_search_documents a b c d)) /\
  (forall a b c, keeps s (_list_documents a b c)) /\
  (forall a b c, keeps s (_create_index a b c)) /\
  (forall a, keeps s (_list_indexes a)).
Proof.
  assert (F : forall a b c d, keeps s (_search_documents_fallback a b c d)).
  { intros. unfold _search_documents_fallback. repeat keeps_step. }
  repeat match goal with |- _ /\ _ => split end; intros; try apply F;
    unfold _list_databases, _create_database, _delete_database, _create_document,
      _get_document, _update_document, _delete_document, _search_documents,
      _list_documents, _create_index, _list_indexes;
    repeat keeps_step; apply F.
Qed.

Lemma keeps_dispatch (s : Server) (name : string) (arguments : dict) :
  keeps s (dispatch name arguments).
Proof.
  destruct (keeps_handlers s) as (H1 & H2 & H3 & H4 & H5 & H6 & H7 & _ & H9 & H10 & H11 & H12).
  unfold dispatch.
  repeat match goal with
         | |- keeps _ (if ?b then _ else _) => destruct b
         end;
    repeat first [ solve [auto] | apply keeps_raise | apply keeps_subscript
                 | apply keeps_bind; [|intros ?] ].
Qed.

Lemma keeps_call_tool (s : Server) (name : string) (arguments : dict) :
  keeps s (call_tool name arguments).
Proof.
  unfold call_tool. apply keeps_try; [apply keeps_dispatch|intros e; apply keeps_ret].
Qed.

Lemma keeps_serve (s : Server) (calls : list (string * dict)) : keeps s (serve calls).
Proof.
  induction calls as [|[name arguments] rest IH]; simpl.
  - apply keeps_ret.
  - apply keeps_bind; [apply keeps_call_tool|intros r].
    apply keeps_bind; [exact IH|intros rs]. apply keeps_ret.
Qed.

Lemma one_block_handlers :
  one_block _list_databases /\
  (forall n, one_block (_create_database n)) /\
  (forall n, one_block (_delete_database n)) /\
  (forall a b c, one_block (_create_document a b c)) /\
  (forall a b, one_block (_get_document a b)) /\
  (forall a b c, one_block (_update_document a b c)) /\
  (forall a b c, one_block (_delete_document a b c)) /\
  (forall a b c d, one_block (_search_documents_fallback a b c d)) /\
  (forall a b c d, one_block (_search_documents a b c d)) /\
  (forall a b c, one_block (_list_documents a b c)) /\
  (forall a b c, one_block (_create_index a b c)) /\
  (forall a, one_block (_list_indexes a)).
Proof.
  assert (F : forall a b c d, one_block (_search_documents_fallback a b c d)).
  { intros. unfold _search_documents_fallback. repeat one_block_step. }
  repeat match goal with |- _ /\ _ => split end; intros; try apply F;
    unfold _list_databases, _create_database, _delete_database, _create_document,
      _get_document, _update_document, _delete_document, _search_documents,
      _list_documents, _create_index, _list_indexes;
    repeat one_block_step; apply F.
Qed.

Lemma one_block_dispatch (name : string) (arguments : dict) :
  one_block (dispatch name arguments).
Proof.
  destruct one_block_handlers as (H1 & H2 & H3 & H4 & H5 & H6 & H7 & _ & H9 & H10 & H11 & H12).
  unfold dispatch.
  repeat match goal with
         | |- one_block (if ?b then _ else _) => destruct b
         end;
    repeat first [ solve [auto] | apply one_block_raise
                 | apply one_block_bind; intros ? ].
Qed.

End Handlers.

(** ** The dispatcher *)

Section Dispatcher.

Context {W : Type} {drv : Driver W} {py : Python}.

Lemma dispatch_unknown (name : string) (arguments : dict) (st : state W) :
  in_catalog name = false ->
  dispatch name arguments st = (Raise (Exn ValueError ("Unknown tool: " ++ name)), st).
Proof.
  unfold in_catalog, list_tools. cbn [existsb tool_name]. intros H.
  repeat (apply orb_false_elim in H; let E := fresh "E" in destruct H as [E H]).
  unfold dispatch.
  repeat match goal with
         | E : (name =? _) = false |- _ => rewrite E; clear E
         end.
  reflexivity.
Qed.

Lemma connect_raises (st st' : state W) (e : exn) :
  connect st = (Raise e, st') ->
  exists cause, e = Exn ConnectionError
                      ("Failed to connect to CouchDB at " ++ url st ++ ": " ++ cause).
Proof.
  unfold connect, try_except, bind, new_server, set_couch, call, get_url, raise, ret.
  destruct (server_new (url st) (world st)) as [[[]|e0] w1]; cbn.
  - destruct (server_version _ w1) as [[v|e1] w2]; cbn; intros H; inversion H; subst.
    now exists (exn_str e1).
  - intros H; inversion H; subst. now exists (exn_str e0).
Qed.

Lemma get_server_connect_fails (st st' : state W) (e : exn) :
  couch st = None -> connect st = (Raise e, st') -> _get_server st = (Raise e, st').
Proof.
  intros Hc He. unfold _get_server. unfold bind at 1. unfold get_couch.
  rewrite Hc. unfold bind. rewrite He. reflexivity.
Qed.

(** What [_get_server] returns is the handle the object then holds. *)
Lemma get_server_result (st st' : state W) (s : Server) :
  _get_server st = (Ok s, st') -> couch st' = Some s.
Proof.
  unfold _get_server. unfold bind at 1. unfold get_couch.
  destruct (couch st) as [s0|] eqn:Hc; unfold bind, ret.
  - rewrite Hc. intros H; inversion H; subst. assumption.
  - destruct (connect st) as [[b|e] st1]; [|discriminate].
    destruct (couch st1) as [s1|] eqn:Hc1; [|discriminate].
    intros H; inversion H; subst. assumption.
Qed.

Lemma call_couch {A : Type} (r : request) (op : W -> outcome A * W)
  (st st' : state W) (res : outcome A) :
  call r op st = (res, st') -> couch st' = couch st.
Proof.
  unfold call. destruct (op (world st)) as [res' w']. intros H; inversion H; reflexivity.
Qed.

(** An opened database is the pair of the held handle and the name asked for. *)
Lemma get_database_result (database : json) (st st' : state W) (db : Database) :
  get_database database st = (Ok db, st') ->
  couch st' = Some (db_server db) /\ db_name db = database.
Proof.
  unfold get_database. unfold bind at 1.
  destruct (_get_server st) as [[s|e] st1] eqn:E; [|discriminate].
  apply get_server_result in E. unfold bind.
  destruct (call (ReqGetitem s database) (server_getitem s database) st1)
    as [[[]|e] st2] eqn:E2; [|discriminate].
  apply call_couch in E2. unfold ret. intros H; inversion H; subst. simpl.
  split; [congruence|reflexivity].
Qed.

(** With a handle in place, opening a database is one driver call. *)
Lemma get_database_connected (database : json) (st : state W) (s : Server) :
  couch st = Some s ->
  get_database database st
  = match server_getitem s database (world st) with
    | (Ok _, w) => (Ok {| db_server := s; db_name := database |},
                    after_call st (ReqGetitem s database) w)
    | (Raise e, w) => (Raise e, after_call st (ReqGetitem s database) w)
    end.
Proof.
  intros Hc. unfold get_database. unfold bind at 1.
  rewrite (get_server_connected st s Hc). unfold bind, call, ret, after_call.
  destruct (server_getitem s database (world st)) as [[[]|e] w]; reflexivity.
Qed.


End Dispatcher.

(** ** Properties of the dispatcher boundary *)

(** C7. For a tool name outside the catalog of eleven tools and any
    arguments, [call_tool] returns (it does not raise) one text block,
    "Error: Unknown tool: <name>", which contains "Unknown tool"; no driver
    call is made and the state is unchanged. *)
Theorem unknown_tool_reported
  {W : Type} {drv : Driver W} {py : Python}
  (name : string) (arguments : dict) (st : state W) :
  in_catalog name = false ->
  call_tool name arguments st
  = (Ok [text_block ("Error: Unknown tool: " ++ name)], st)
  /\ contains "Unknown tool" ("Error: Unknown tool: " ++ name)
  /\ List.length list_tools = 11.
Proof.
  intros H. split; [|split].
  - unfold call_tool, try_except. rewrite dispatch_unknown by exact H. reflexivity.
  - exists "Error: ", (": " ++ name). reflexivity.
  - reflexivity.
Qed.

Lemma unknown_tool_reported_witness :
  in_catalog "couchdb_compact" = false
  /\ call_tool "couchdb_compact" [("database", JStr "notes")]
       (Sample.connected Sample.remote0)
     = (Ok [text_block "Error: Unknown tool: couchdb_compact"],
        Sample.connected Sample.remote0).
Proof.
  split; [reflexivity|].
  apply (unknown_tool_reported "couchdb_compact" [("database", JStr "notes")]
           (Sample.connected Sample.remote0)).
  reflexivity.
Defined.



(** ** The connection holder *)

(** C9. The handle is written once.  With a handle in place
    [_get_server] returns it and leaves the whole state, the request log
    included, as it was: nothing is sent, so the handle is neither replaced
    nor probed again.  A tool call, and any run of tool calls after
    [main]'s start-up, ends with the same handle and sends no connecting
    request.  Conversely a tool call that does send one started without a
    handle, as [main]'s own attempt does. *)
Theorem connection_handle_written_once
  {W : Type} {drv : Driver W} {py : Python} :
  (forall (st : state W) s,
      couch st = Some s -> _get_server st = (Ok s, st))
  /\ (forall name arguments (st : state W) s,
        couch st = Some s ->
        couch (snd (call_tool name arguments st)) = Some s
        /\ exists l, log (snd (call_tool name arguments st)) = (log st ++ l)%list
                     /\ quiet l = true)
  /\ (forall u (w : W) calls more s,
        couch (snd (main calls (init u w))) = Some s ->
        couch (snd (serve more (snd (main calls (init u w))))) = Some s
        /\ exists l, log (snd (serve more (snd (main calls (init u w)))))
                     = (log (snd (main calls (init u w))) ++ l)%list
                     /\ quiet l = true)
  /\ (forall name arguments (st : state W) l,
        log (snd (call_tool name arguments st)) = (log st ++ l)%list ->
        quiet l = false ->
        couch st = None)
  /\ (forall u (w : W), couch (init u w) = None).
Proof.
  split; [|split; [|split; [|split]]].
  - intros st s Hc. exact (get_server_connected st s Hc).
  - intros name arguments st s Hc.
    destruct (call_tool name arguments st) as [r st'] eqn:E.
    exact (keeps_call_tool s name arguments st r st' Hc E).
  - intros u w calls more s Hc.
    destruct (serve more (snd (main calls (init u w)))) as [r st'] eqn:E.
    exact (keeps_serve s more _ r st' Hc E).
  - intros name arguments st l Hl Hq.
    destruct (couch st) as [s|] eqn:Hc; [|reflexivity].
    destruct (call_tool name arguments st) as [r st'] eqn:E.
    destruct (keeps_call_tool s name arguments st r st' Hc E) as [_ [l' [Hl' Hq']]].
    simpl in Hl. rewrite Hl' in Hl. apply app_inv_head in Hl. subst l'.
    rewrite Hq in Hq'. discriminate Hq'.
  - reflexivity.
Qed.

Lemma connection_handle_written_once_witness :
  couch (Sample.connected Sample.remote_down) = Some Sample.srv
  /\ _get_server (Sample.connected Sample.remote_down)
     = (Ok Sample.srv, Sample.connected Sample.remote_down).
Proof.
  split; [reflexivity|].
  apply (proj1 connection_handle_written_once
           (Sample.connected Sample.remote_down) Sample.srv).
  reflexivity.
Defined.

(** A handle left behind by a failed probe: [connect] stores the new server
    object before it asks for the version, so a failure of that request
    raises and still leaves the object in [self.couch]. *)
Lemma failed_probe_leaves_handle
  {W : Type} {drv : Driver W} (st : state W) (w1 w2 : W) (e : exn) :
  server_new (url st) (world st) = (Ok tt, w1) ->
  server_version {| server_oid := next_oid st; server_url := url st |} w1 = (Raise e, w2) ->
  couch (snd (connect st)) = Some {| server_oid := next_oid st; server_url := url st |}
  /\ exists e', fst (connect st) = Raise e' /\ exn_cls e' = ConnectionError.
Proof.
  intros Hn Hv.
  unfold connect, try_except, bind, new_server, set_couch, call, get_url, raise, ret.
  rewrite Hn. cbn. rewrite Hv. cbn. split; [reflexivity|].
  eexists. split; reflexivity.
Qed.

(** ** Dictionaries *)

Lemma dict_get_set_same (k : string) (v : json) (d : dict) :
  dict_get k (dict_set k v d) = Some v.
Proof.
  induction d as [|[k' v'] d IH]; simpl.
  - now rewrite String.eqb_refl.
  - destruct (String.eqb k k') eqn:E; simpl.
    + now rewrite String.eqb_refl.
    + now rewrite E.
Qed.

Lemma dict_get_set_other (k k' : string) (v : json) (d : dict) :
  k <> k' -> dict_get k (dict_set k' v d) = dict_get k d.
Proof.
  intros Hne. induction d as [|[k1 v1] d IH]; simpl.
  - apply String.eqb_neq in Hne. now rewrite Hne.
  - destruct (String.eqb k' k1) eqn:E; simpl.
    + apply String.eqb_eq in E. subst k1.
      apply String.eqb_neq in Hne. now rewrite Hne.
    + destruct (String.eqb k k1); [reflexivity|exact IH].
Qed.

(** In [{**base, **extra}] the entries of [extra] win. *)
Lemma dict_get_update (k : string) (extra base : dict) :
  unique_keys extra = true ->
  dict_get k (dict_update base extra)
  = match dict_get k extra with
    | Some v => Some v
    | None => dict_get k base
    end.
Proof.
  unfold dict_update. revert base.
  induction extra as [|[k1 v1] extra IH]; intros base Hu; simpl.
  - reflexivity.
  - simpl in Hu. apply andb_true_iff in Hu. destruct Hu as [Hk Hu].
    rewrite (IH _ Hu).
    destruct (String.eqb k k1) eqn:E.
    + apply String.eqb_eq in E. subst k1.
      unfold dict_mem in Hk. destruct (dict_get k extra); [discriminate|].
      apply dict_get_set_same.
    + destruct (dict_get k extra); [reflexivity|].
      apply dict_get_set_other. now apply String.eqb_neq.
Qed.

(** ** Documents *)

Section Documents.

Context {W : Type} {drv : Driver W} {py : Python}.

Lemma call_tool_passes (name : string) (arguments : dict) (st st' : state W)
  (r : list TextContent) :
  dispatch name arguments st = (Ok r, st') -> call_tool name arguments st = (Ok r, st').
Proof. intros H. unfold call_tool, try_except. now rewrite H. Qed.

Lemma dispatch_create_document (arguments : dict) (database document : json) :
  dict_get "database" arguments = Some database ->
  dict_get "document" arguments = Some document ->
  dispatch "couchdb_create_document" arguments
  = _create_document database document (dict_get_default "doc_id" JNull arguments).
Proof.
  intros H1 H2. unfold dispatch. cbn [String.eqb Ascii.eqb Bool.eqb].
  unfold subscript. rewrite H1, H2. reflexivity.
Qed.

Lemma create_document_saved (database document doc_id : json) (st st1 : state W)
  (db : Database) (payload : json) (res : outcome (json * json)) (w2 : W) :
  get_database database st = (Ok db, st1) ->
  create_payload document doc_id = Ok payload ->
  database_save db payload (world st1) = (res, w2) ->
  _create_document database document doc_id st
  = match res with
    | Ok saved =>
        (Ok [text_block
               (json_dumps (JObj [("id", fst saved); ("rev", snd saved);
                                  ("message", JStr "Document created successfully")]))],
         after_call st1 (ReqSave db payload) w2)
    | Raise e =>
        (Ok [text_block
               match exn_cls e with
               | KeyError => "Database '" ++ py_str database ++ "' not found"
               | _ => "Error creating document: " ++ exn_str e
               end],
         after_call st1 (ReqSave db payload) w2)
    end.
Proof.
  intros Hdb Hp Hs. unfold _create_document, try_except. unfold bind at 1.
  rewrite Hdb. unfold bind at 1. unfold lift. rewrite Hp.
  unfold bind, call. rewrite Hs. unfold after_call, ret.
  destruct res as [saved|e]; [reflexivity|].
  destruct (exn_cls e); reflexivity.
Qed.

Lemma create_payload_fields (d : dict) (doc_id : json) :
  truthy doc_id = true -> unique_keys d = true ->
  exists p,
    create_payload (JObj d) doc_id = Ok (JObj p)
    /\ dict_get "_id" p = Some (dict_get_default "_id" doc_id d)
    /\ (forall k, k <> "_id" -> dict_get k p = dict_get k d).
Proof.
  intros Ht Hu. exists (dict_update [("_id", doc_id)] d).
  unfold create_payload. rewrite Ht. simpl. split; [reflexivity|split].
  - rewrite (dict_get_update "_id" d _ Hu). unfold dict_get_default.
    destruct (dict_get "_id" d); reflexivity.
  - intros k Hk. rewrite (dict_get_update k d _ Hu).
    destruct (dict_get k d); [reflexivity|].
    simpl. apply String.eqb_neq in Hk. now rewrite Hk.
Qed.

End Documents.

(** ** [create_document] *)

(** C2, as stated, fails: with [doc_id] "a" and a document that has its own
    [_id] "b", the document handed to [db.save] keeps the [_id] "b", and the
    output names "b", not "a". *)
Lemma create_document_own_id_wins :
  create_payload (JObj [("_id", JStr "b"); ("x", JNum 1)]) (JStr "a")
  = Ok (JObj [("_id", JStr "b"); ("x", JNum 1)])
  /\ fst (call_tool "couchdb_create_document" Sample.create_args_two_ids
            (Sample.connected Sample.remote0))
     = Ok [text_block
             (json_dumps (JObj [("id", JStr "b"); ("rev", JStr "2-mem");
                                ("message", JStr "Document created successfully")]))]
  /\ log (snd (call_tool "couchdb_create_document" Sample.create_args_two_ids
                 (Sample.connected Sample.remote0)))
     = [ReqGetitem Sample.srv (JStr "notes");
        ReqSave Sample.db (JObj [("_id", JStr "b"); ("x", JNum 1)])]
  /\ json_dumps (JObj [("id", JStr "b"); ("rev", JStr "2-mem");
                       ("message", JStr "Document created successfully")])
     <> json_dumps (JObj [("id", JStr "a"); ("rev", JStr "2-mem");
                          ("message", JStr "Document created successfully")]).
Proof.
  split; [reflexivity|split; [reflexivity|split; [reflexivity|]]].
  vm_compute. discriminate.
Qed.

(** C2, amended.  For a [create_document] call on a database that opens and
    whose save is accepted with [(id, rev)], the output is the object
    [{id, rev, message}] with exactly that id and revision.  Without a
    [doc_id], or with one that is empty, the document is saved as given.
    With a non-empty [doc_id] the saved document is the given one plus an
    [_id]: the document's own [_id] if it has one, [doc_id] otherwise; so
    for a document without an [_id], saved by a database that answers with
    the [_id] it was sent, the output echoes [doc_id]. *)
Theorem create_document_output
  {W : Type} {drv : Driver W} {py : Python}
  (arguments : dict) (database document : json) (st st1 : state W)
  (db : Database) (payload id rev : json) (w2 : W) :
  dict_get "database" arguments = Some database ->
  dict_get "document" arguments = Some document ->
  get_database database st = (Ok db, st1) ->
  create_payload document (dict_get_default "doc_id" JNull arguments) = Ok payload ->
  database_save db payload (world st1) = (Ok (id, rev), w2) ->
  call_tool "couchdb_create_document" arguments st
  = (Ok [text_block
           (json_dumps (JObj [("id", id); ("rev", rev);
                              ("message", JStr "Document created successfully")]))],
     after_call st1 (ReqSave db payload) w2)
  /\ (truthy (dict_get_default "doc_id" JNull arguments) = false ->
      payload = document)
  /\ (dict_get "doc_id" arguments = None -> payload = document)
  /\ (forall d,
        truthy (dict_get_default "doc_id" JNull arguments) = true ->
        document = JObj d -> unique_keys d = true ->
        exists p,
          payload = JObj p
          /\ dict_get "_id" p
             = Some (dict_get_default "_id" (dict_get_default "doc_id" JNull arguments) d)
          /\ (forall k, k <> "_id" -> dict_get k p = dict_get k d)
          /\ (dict_get "_id" d = None -> dict_get "_id" p = Some id ->
              id = dict_get_default "doc_id" JNull arguments)).
Proof.
  intros Hd Hdoc Hdb Hp Hs.
  assert (F : truthy (dict_get_default "doc_id" JNull arguments) = false ->
              payload = document).
  { intros Ht. unfold create_payload in Hp. rewrite Ht in Hp. congruence. }
  split; [|split; [exact F|split]].
  - apply call_tool_passes. rewrite (dispatch_create_document arguments _ _ Hd Hdoc).
    rewrite (create_document_saved _ _ _ st st1 db payload _ w2 Hdb Hp Hs).
    reflexivity.
  - intros Hnone. apply F. unfold dict_get_default. rewrite Hnone. reflexivity.
  - intros d Ht -> Hu.
    destruct (create_payload_fields d _ Ht Hu) as [p [Hp' [Hid Hrest]]].
    exists p. rewrite Hp in Hp'. inversion Hp'; subst payload.
    split; [reflexivity|split; [exact Hid|split; [exact Hrest|]]].
    intros Hnone Hecho. rewrite Hid in Hecho. unfold dict_get_default in Hecho at 1.
    rewrite Hnone in Hecho. congruence.
Qed.

Lemma create_document_output_witness :
  call_tool "couchdb_create_document" Sample.create_args
    (Sample.connected Sample.remote0)
  = (Ok [text_block
           (json_dumps (JObj [("id", JStr "a"); ("rev", JStr "2-mem");
                              ("message", JStr "Document created successfully")]))],
     after_call
       (after_call (Sample.connected Sample.remote0)
          (ReqGetitem Sample.srv (JStr "notes")) Sample.remote0)
       (ReqSave Sample.db (JObj [("_id", JStr "a"); ("x", JNum 1)]))
       (MemCouch.with_dbs Sample.remote0
          [("notes",
            [("n1", Sample.stored_note);
             ("a", [("_id", JStr "a"); ("x", JNum 1); ("_rev", JStr "2-mem")])])])).
Proof.
  apply (create_document_output
           Sample.create_args (JStr "notes") (JObj [("x", JNum 1)])
           (Sample.connected Sample.remote0)
           (after_call (Sample.connected Sample.remote0)
              (ReqGetitem Sample.srv (JStr "notes")) Sample.remote0)
           Sample.db (JObj [("_id", JStr "a"); ("x", JNum 1)])
           (JStr "a") (JStr "2-mem")
           (MemCouch.with_dbs Sample.remote0
              [("notes",
                [("n1", Sample.stored_note);
                 ("a", [("_id", JStr "a"); ("x", JNum 1); ("_rev", JStr "2-mem")])])]));
    reflexivity.
Defined.

(** ** Revision conflicts *)

Section Conflicts.

Context {W : Type} {drv : Driver W} {py : Python}.

Lemma dispatch_update_document (arguments : dict) (database doc_id document : json) :
  dict_get "database" arguments = Some database ->
  dict_get "doc_id" arguments = Some doc_id ->
  dict_get "document" arguments = Some document ->
  dispatch "couchdb_update_document" arguments
  = _update_document database doc_id document.
Proof.
  intros H1 H2 H3. unfold dispatch. cbn [String.eqb Ascii.eqb Bool.eqb].
  unfold subscript. rewrite H1, H2, H3. reflexivity.
Qed.

Lemma dispatch_get_document (arguments : dict) (database doc_id : json) :
  dict_get "database" arguments = Some database ->
  dict_get "doc_id" arguments = Some doc_id ->
  dispatch "couchdb_get_document" arguments = _get_document database doc_id.
Proof.
  intros H1 H2. unfold dispatch. cbn [String.eqb Ascii.eqb Bool.eqb].
  unfold subscript. rewrite H1, H2. reflexivity.
Qed.

Lemma update_document_saved (database doc_id document : json) (st st1 : state W)
  (db : Database) (payload : json) (res : outcome (json * json)) (w2 : W) :
  get_database database st = (Ok db, st1) ->
  update_payload document doc_id = Ok payload ->
  database_save db payload (world st1) = (res, w2) ->
  _update_document database doc_id document st
  = (Ok [text_block
           match res with
           | Ok saved =>
               json_dumps (JObj [("id", fst saved); ("rev", snd saved);
                                 ("message", JStr "Document updated successfully")])
           | Raise e =>
               match exn_cls e with
               | KeyError => "Database '" ++ py_str database ++ "' not found"
               | ResourceConflict => update_conflict_message
               | _ => "Error updating document: " ++ exn_str e
               end
           end],
     after_call st1 (ReqSave db payload) w2).
Proof.
  intros Hdb Hp Hs. unfold _update_document, try_except. unfold bind at 1.
  rewrite Hdb. unfold bind at 1. unfold lift. rewrite Hp.
  unfold bind, call. rewrite Hs. unfold after_call, ret.
  destruct res as [saved|e]; [reflexivity|].
  destruct (exn_cls e); reflexivity.
Qed.

Lemma delete_document_run (database doc_id rev : json) (st st1 : state W)
  (db : Database) (res : outcome unit) (w2 : W) :
  get_database database st = (Ok db, st1) ->
  database_delete db (JObj [("_id", doc_id); ("_rev", rev)]) (world st1) = (res, w2) ->
  forall e, res = Raise e -> exn_cls e = ResourceConflict ->
  _delete_document database doc_id rev st
  = (Ok [text_block "Document delete conflict - revision mismatch"],
     after_call st1 (ReqDocDelete db (JObj [("_id", doc_id); ("_rev", rev)])) w2).
Proof.
  intros Hdb Hs e -> He. unfold _delete_document, try_except. unfold bind at 1.
  rewrite Hdb. unfold bind, call. rewrite Hs. rewrite He. reflexivity.
Qed.

Lemma get_document_run (database doc_id : json) (st : state W) (s : Server)
  (w1 w2 : W) (doc : json) :
  couch st = Some s ->
  server_getitem s database (world st) = (Ok tt, w1) ->
  database_getitem {| db_server := s; db_name := database |} doc_id w1 = (Ok doc, w2) ->
  _get_document database doc_id st
  = (Ok [text_block (json_dumps doc)],
     after_call (after_call st (ReqGetitem s database) w1)
       (ReqDocGetitem {| db_server := s; db_name := database |} doc_id) w2).
Proof.
  intros Hc Hg Hd. unfold _get_document, try_except. unfold bind at 1.
  rewrite (get_database_connected database st s Hc), Hg.
  unfold bind, call. cbn. rewrite Hd. reflexivity.
Qed.

End Conflicts.

(** The reference database rejects a save whose revision is not the stored
    one, and writes nothing. *)
Lemma mem_save_stale (db : Database) (n i r : string) (docs : list (string * dict))
  (cur d : dict) (w : MemCouch.remote) :
  MemCouch.up w = true ->
  db_name db = JStr n ->
  MemCouch.assoc n (MemCouch.dbs w) = Some docs ->
  dict_get "_id" d = Some (JStr i) ->
  MemCouch.assoc i docs = Some cur ->
  dict_get "_rev" cur = Some (JStr r) ->
  dict_get "_rev" d <> Some (JStr r) ->
  MemCouch.save db (JObj d) w = (Raise MemCouch.conflict, w).
Proof.
  intros Hup Hn Hdocs Hid Hcur Hrev Hne.
  unfold MemCouch.save, MemCouch.on_db. rewrite Hup, Hn, Hdocs, Hid, Hcur, Hrev.
  destruct (dict_get "_rev" d) as [[| | |r'| |]|]; try reflexivity.
  destruct (String.eqb r r') eqn:E; [|reflexivity].
  apply String.eqb_eq in E. subst r'. contradiction.
Qed.

(** C10.  When [db.save] rejects a [create_document] call with a revision
    conflict, the output is the generic "Error creating document:
    <str(e)>": the handler has no clause for the conflict.  The same
    rejection under [update_document] and a conflict under
    [delete_document] get their dedicated messages, and the generic text is
    neither of them. *)
Theorem create_conflict_is_generic
  {W : Type} {drv : Driver W} {py : Python}
  (arguments : dict) (database document : json) (st st1 : state W)
  (db : Database) (payload : json) (e : exn) (w2 : W) :
  dict_get "database" arguments = Some database ->
  dict_get "document" arguments = Some document ->
  get_database database st = (Ok db, st1) ->
  create_payload document (dict_get_default "doc_id" JNull arguments) = Ok payload ->
  database_save db payload (world st1) = (Raise e, w2) ->
  exn_cls e = ResourceConflict ->
  call_tool "couchdb_create_document" arguments st
  = (Ok [text_block ("Error creating document: " ++ exn_str e)],
     after_call st1 (ReqSave db payload) w2)
  /\ "Error creating document: " ++ exn_str e <> update_conflict_message
  /\ (forall doc_id document',
        update_payload document' doc_id = Ok payload ->
        _update_document database doc_id document' st
        = (Ok [text_block update_conflict_message],
           after_call st1 (ReqSave db payload) w2))
  /\ (forall doc_id rev e' w3,
        database_delete db (JObj [("_id", doc_id); ("_rev", rev)]) (world st1)
        = (Raise e', w3) ->
        exn_cls e' = ResourceConflict ->
        _delete_document database doc_id rev st
        = (Ok [text_block "Document delete conflict - revision mismatch"],
           after_call st1 (ReqDocDelete db (JObj [("_id", doc_id); ("_rev", rev)])) w3)).
Proof.
  intros Hd Hdoc Hdb Hp Hs He. split; [|split; [|split]].
  - apply call_tool_passes. rewrite (dispatch_create_document arguments _ _ Hd Hdoc).
    rewrite (create_document_saved _ _ _ st st1 db payload _ w2 Hdb Hp Hs).
    rewrite He. reflexivity.
  - unfold update_conflict_message. simpl. discriminate.
  - intros doc_id document' Hp'.
    rewrite (update_document_saved _ _ _ st st1 db payload _ w2 Hdb Hp' Hs).
    rewrite He. reflexivity.
  - intros doc_id rev e' w3 Hdel He'.
    exact (delete_document_run _ _ _ st st1 db _ w3 Hdb Hdel e' eq_refl He').
Qed.

Lemma create_conflict_is_generic_witness :
  call_tool "couchdb_create_document"
    [("database", JStr "notes"); ("document", JObj [("x", JNum 1)]); ("doc_id", JStr "n1")]
    (Sample.connected Sample.remote0)
  = (Ok [text_block "Error creating document: ('conflict', 'Document update conflict.')"],
     after_call
       (after_call (Sample.connected Sample.remote0)
          (ReqGetitem Sample.srv (JStr "notes")) Sample.remote0)
       (ReqSave Sample.db (JObj [("_id", JStr "n1"); ("x", JNum 1)]))
       Sample.remote0).
Proof.
  apply (create_conflict_is_generic
           [("database", JStr "notes"); ("document", JObj [("x", JNum 1)]);
            ("doc_id", JStr "n1")]
           (JStr "notes") (JObj [("x", JNum 1)])
           (Sample.connected Sample.remote0)
           (after_call (Sample.connected Sample.remote0)
              (ReqGetitem Sample.srv (JStr "notes")) Sample.remote0)
           Sample.db (JObj [("_id", JStr "n1"); ("x", JNum 1)])
           MemCouch.conflict Sample.remote0);
    reflexivity.
Defined.

(** C5.  An [update_document] call on a database that opens, whose save the
    database rejects with a revision conflict (what CouchDB answers to a
    revision that is not the current one): the output is the conflict
    message, which tells the caller to get the latest revision; the save is
    the last request of the call, so nothing is retried; and the server is
    left in the state in which the rejected save left it, so a database that
    writes nothing on a rejection still holds the stored document as it
    was. *)
Theorem update_conflict_reported
  {W : Type} {drv : Driver W} {py : Python}
  (arguments : dict) (database doc_id document : json) (st st1 : state W)
  (db : Database) (payload : json) (e : exn) (w2 : W) :
  dict_get "database" arguments = Some database ->
  dict_get "doc_id" arguments = Some doc_id ->
  dict_get "document" arguments = Some document ->
  get_database database st = (Ok db, st1) ->
  update_payload document doc_id = Ok payload ->
  database_save db payload (world st1) = (Raise e, w2) ->
  exn_cls e = ResourceConflict ->
  call_tool "couchdb_update_document" arguments st
  = (Ok [text_block update_conflict_message], after_call st1 (ReqSave db payload) w2)
  /\ contains "please get the latest revision" update_conflict_message
  /\ log (snd (call_tool "couchdb_update_document" arguments st))
     = (log st1 ++ [ReqSave db payload])%list
  /\ world (snd (call_tool "couchdb_update_document" arguments st)) = w2
  /\ (w2 = world st1 ->
      world (snd (call_tool "couchdb_update_document" arguments st)) = world st1).
Proof.
  intros Hd Hid Hdoc Hdb Hp Hs He.
  assert (R : call_tool "couchdb_update_document" arguments st
              = (Ok [text_block update_conflict_message],
                 after_call st1 (ReqSave db payload) w2)).
  { apply call_tool_passes.
    rewrite (dispatch_update_document arguments _ _ _ Hd Hid Hdoc).
    rewrite (update_document_saved _ _ _ st st1 db payload _ w2 Hdb Hp Hs).
    rewrite He. reflexivity. }
  rewrite R. split; [reflexivity|split; [|split; [reflexivity|split; [reflexivity|]]]].
  - exists "Document update conflict - document was modified, ", "". reflexivity.
  - intros ->. reflexivity.
Qed.

Lemma update_conflict_reported_witness :
  MemCouch.save Sample.db
    (JObj [("title", JStr "second"); ("_rev", JStr "0-old"); ("_id", JStr "n1")])
    Sample.remote0
  = (Raise MemCouch.conflict, Sample.remote0)
  /\ call_tool "couchdb_update_document"
       [("database", JStr "notes"); ("doc_id", JStr "n1"); ("document", Sample.stale_update)]
       (Sample.connected Sample.remote0)
     = (Ok [text_block update_conflict_message],
        after_call
          (after_call (Sample.connected Sample.remote0)
             (ReqGetitem Sample.srv (JStr "notes")) Sample.remote0)
          (ReqSave Sample.db
             (JObj [("title", JStr "second"); ("_rev", JStr "0-old"); ("_id", JStr "n1")]))
          Sample.remote0).
Proof.
  split; [reflexivity|].
  apply (update_conflict_reported
           [("database", JStr "notes"); ("doc_id", JStr "n1");
            ("document", Sample.stale_update)]
           (JStr "notes") (JStr "n1") Sample.stale_update
           (Sample.connected Sample.remote0)
           (after_call (Sample.connected Sample.remote0)
              (ReqGetitem Sample.srv (JStr "notes")) Sample.remote0)
           Sample.db
           (JObj [("title", JStr "second"); ("_rev", JStr "0-old"); ("_id", JStr "n1")])
           MemCouch.conflict Sample.remote0);
    reflexivity.
Defined.

(** ** Round trip *)

(** C6.  [create_document] for a document [d], then [get_document] on the
    id the first call returned, on a database that opens both times and
    returns under that id what it was given together with the id and the
    revision it assigned: the second call outputs the stored document, and
    that document has the id under [_id], the revision under [_rev] and
    under every other key what [d] has. *)
Theorem create_then_get_round_trip
  {W : Type} {drv : Driver W} {py : Python}
  (arguments arguments' : dict) (database : json) (d p stored : dict)
  (st st1 : state W) (db : Database) (id rev : json) (w2 w3 w4 : W) :
  dict_get "database" arguments = Some database ->
  dict_get "document" arguments = Some (JObj d) ->
  unique_keys d = true ->
  get_database database st = (Ok db, st1) ->
  create_payload (JObj d) (dict_get_default "doc_id" JNull arguments) = Ok (JObj p) ->
  database_save db (JObj p) (world st1) = (Ok (id, rev), w2) ->
  dict_get "database" arguments' = Some database ->
  dict_get "doc_id" arguments' = Some id ->
  server_getitem (db_server db) database w2 = (Ok tt, w3) ->
  database_getitem db id w3 = (Ok (JObj stored), w4) ->
  (forall k, dict_get k stored
             = dict_get k (dict_set "_rev" rev (dict_set "_id" id p))) ->
  call_tool "couchdb_create_document" arguments st
  = (Ok [text_block
           (json_dumps (JObj [("id", id); ("rev", rev);
                              ("message", JStr "Document created successfully")]))],
     after_call st1 (ReqSave db (JObj p)) w2)
  /\ fst (call_tool "couchdb_get_document" arguments'
            (snd (call_tool "couchdb_create_document" arguments st)))
     = Ok [text_block (json_dumps (JObj stored))]
  /\ (forall k, dict_get k stored
                = dict_get k (dict_set "_rev" rev (dict_set "_id" id d))).
Proof.
  intros Hd Hdoc Hu Hdb Hp Hs Hd' Hid' Hopen Hget Hstored.
  assert (C : call_tool "couchdb_create_document" arguments st
              = (Ok [text_block
                       (json_dumps (JObj [("id", id); ("rev", rev);
                                          ("message", JStr "Document created successfully")]))],
                 after_call st1 (ReqSave db (JObj p)) w2)).
  { apply call_tool_passes. rewrite (dispatch_create_document arguments _ _ Hd Hdoc).
    rewrite (create_document_saved _ _ _ st st1 db (JObj p) _ w2 Hdb Hp Hs).
    reflexivity. }
  destruct (get_database_result database st st1 db Hdb) as [Hc Hn].
  split; [exact C|split].
  - rewrite C. cbn [snd].
    assert (Hdb_eq : db = {| db_server := db_server db; db_name := database |}).
    { destruct db as [s n]. simpl in Hn. subst n. reflexivity. }
    rewrite Hdb_eq in Hget.
    erewrite call_tool_passes; [reflexivity|].
    rewrite (dispatch_get_document arguments' _ _ Hd' Hid').
    apply (get_document_run database id _ (db_server db) w3 w4 (JObj stored)).
    + exact Hc.
    + exact Hopen.
    + exact Hget.
  - intros k. rewrite Hstored.
    destruct (String.eqb k "_rev") eqn:Er.
    { apply String.eqb_eq in Er. subst k. now rewrite !dict_get_set_same. }
    apply String.eqb_neq in Er. rewrite !(dict_get_set_other k "_rev") by exact Er.
    destruct (String.eqb k "_id") eqn:Ei.
    { apply String.eqb_eq in Ei. subst k. now rewrite !dict_get_set_same. }
    apply String.eqb_neq in Ei. rewrite !(dict_get_set_other k "_id") by exact Ei.
    unfold create_payload in Hp.
    destruct (truthy (dict_get_default "doc_id" JNull arguments)) eqn:Ht.
    + destruct (create_payload_fields d _ Ht Hu) as [p' [Hp' [_ Hrest]]].
      unfold create_payload in Hp'. rewrite Ht in Hp'. rewrite Hp in Hp'.
      inversion Hp'; subst p'. now apply Hrest.
    + inversion Hp; subst p. reflexivity.
Qed.

Lemma create_then_get_round_trip_witness :
  fst (call_tool "couchdb_get_document"
         [("database", JStr "notes"); ("doc_id", JStr "doc-1")]
         (snd (call_tool "couchdb_create_document"
                 [("database", JStr "notes"); ("document", JObj [("x", JNum 1)])]
                 (Sample.connected Sample.remote0))))
  = Ok [text_block
          (json_dumps (JObj [("x", JNum 1); ("_id", JStr "doc-1"); ("_rev", JStr "2-mem")]))].
Proof.
  apply (create_then_get_round_trip
           [("database", JStr "notes"); ("document", JObj [("x", JNum 1)])]
           [("database", JStr "notes"); ("doc_id", JStr "doc-1")]
           (JStr "notes") [("x", JNum 1)] [("x", JNum 1)]
           [("x", JNum 1); ("_id", JStr "doc-1"); ("_rev", JStr "2-mem")]
           (Sample.connected Sample.remote0)
           (after_call (Sample.connected Sample.remote0)
              (ReqGetitem Sample.srv (JStr "notes")) Sample.remote0)
           Sample.db (JStr "doc-1") (JStr "2-mem")
           (MemCouch.with_dbs Sample.remote0
              [("notes",
                [("n1", Sample.stored_note);
                 ("doc-1", [("x", JNum 1); ("_id", JStr "doc-1"); ("_rev", JStr "2-mem")])])])
           (MemCouch.with_dbs Sample.remote0
              [("notes",
                [("n1", Sample.stored_note);
                 ("doc-1", [("x", JNum 1); ("_id", JStr "doc-1"); ("_rev", JStr "2-mem")])])])
           (MemCouch.with_dbs Sample.remote0
              [("notes",
                [("n1", Sample.stored_note);
                 ("doc-1", [("x", JNum 1); ("_id", JStr "doc-1"); ("_rev", JStr "2-mem")])])]));
    reflexivity.
Defined.

(** ** Search *)

Section Search.

Context {W : Type} {drv : Driver W} {py : Python}.

Lemma dispatch_search_documents (arguments : dict) (database query : json) :
  dict_get "database" arguments = Some database ->
  dict_get "query" arguments = Some query ->
  dispatch "couchdb_search_documents" arguments
  = _search_documents database query
      (dict_get_default "limit" (JNum 25) arguments)
      (dict_get_default "skip" (JNum 0) arguments).
Proof.
  intros H1 H2. unfold dispatch. cbn [String.eqb Ascii.eqb Bool.eqb].
  unfold subscript. rewrite H1, H2. reflexivity.
Qed.

(** The state [call_tool] ends in is the one the dispatch ends in. *)
Lemma call_tool_state (name : string) (arguments : dict) (st : state W) :
  snd (call_tool name arguments st) = snd (dispatch name arguments st).
Proof.
  unfold call_tool, try_except.
  destruct (dispatch name arguments st) as [[r|e] st']; reflexivity.
Qed.

Lemma search_documents_run (database query limit skip : json) (st st1 : state W)
  (db : Database) (res : outcome (list json)) (w2 : W) :
  get_database database st = (Ok db, st1) ->
  database_find db (mango_query query limit skip) (world st1) = (res, w2) ->
  _search_documents database query limit skip st
  = match res with
    | Ok docs =>
        (Ok [text_block (json_dumps (JObj (primary_response docs)))],
         after_call st1 (ReqFind db (mango_query query limit skip)) w2)
    | Raise e =>
        match exn_cls e with
        | KeyError =>
            (Ok [text_block ("Database '" ++ py_str database ++ "' not found")],
             after_call st1 (ReqFind db (mango_query query limit skip)) w2)
        | AttributeError =>
            _search_documents_fallback database query limit skip
              (after_call st1 (ReqFind db (mango_query query limit skip)) w2)
        | _ =>
            (Ok [text_block ("Error searching documents: " ++ exn_str e)],
             after_call st1 (ReqFind db (mango_query query limit skip)) w2)
        end
    end.
Proof.
  intros Hdb Hf. unfold _search_documents, try_except. unfold bind at 1.
  rewrite Hdb. unfold bind, call. rewrite Hf. unfold after_call, ret, primary_response.
  destruct res as [docs|e]; [reflexivity|].
  destruct (exn_cls e); reflexivity.
Qed.

Lemma search_fallback_run (database query limit skip : json) (st : state W)
  (s : Server) (w1 w2 : W) (res : outcome dict) :
  couch st = Some s ->
  server_getitem s database (world st) = (Ok tt, w1) ->
  resource_post_json {| db_server := s; db_name := database |} "_find"
    (mango_query query limit skip) w1 = (res, w2) ->
  _search_documents_fallback database query limit skip st
  = (Ok [text_block
           match res with
           | Ok reply =>
               match py_len (dict_get_default "docs" (JArr []) reply) with
               | Ok n => json_dumps (JObj (fallback_response reply n))
               | Raise e => "Error in fallback search: " ++ exn_str e
               end
           | Raise e => "Error in fallback search: " ++ exn_str e
           end],
     after_call (after_call st (ReqGetitem s database) w1)
       (ReqPostJson {| db_server := s; db_name := database |} "_find"
          (mango_query query limit skip)) w2).
Proof.
  intros Hc Hg Hp. unfold _search_documents_fallback, try_except. unfold bind at 1.
  rewrite (get_database_connected database st s Hc), Hg.
  unfold bind, call. cbn. rewrite Hp. unfold lift, ret, fallback_response.
  destruct res as [reply|e]; [|reflexivity].
  destruct (py_len (dict_get_default "docs" (JArr []) reply)); reflexivity.
Qed.

Lemma search_fallback_total (database query limit skip : json) :
  total (_search_documents_fallback database query limit skip).
Proof.
  intros st. unfold _search_documents_fallback, try_except.
  match goal with |- context [match ?b st with _ => _ end] => destruct (b st) as [[r|e] st'] end.
  - now exists r, st'.
  - eexists _, st'. reflexivity.
Qed.

Lemma opened_database (database : json) (st st1 : state W) (db : Database) :
  get_database database st = (Ok db, st1) ->
  couch st1 = Some (db_server db)
  /\ db = {| db_server := db_server db; db_name := database |}.
Proof.
  intros Hdb. destruct (get_database_result database st st1 db Hdb) as [Hc Hn].
  split; [exact Hc|]. destruct db as [s n]. simpl in Hn. subst n. reflexivity.
Qed.

End Search.

(** C8.  A [search_documents] call on a database that opens sends the
    query with the limit and the skip of the arguments, 25 and 0 where a
    key is absent.  When the driver finds no document the output is
    [{docs: [], count: 0, note}]; when the driver has no [find] and the raw
    request answers with no document, the output has count 0 and the note
    as well.  The note names [couchdb_list_documents]. *)
Theorem search_defaults_and_empty_note
  {W : Type} {drv : Driver W} {py : Python}
  (arguments : dict) (database query : json) (st st1 : state W)
  (db : Database) (res : outcome (list json)) (w2 : W) :
  dict_get "database" arguments = Some database ->
  dict_get "query" arguments = Some query ->
  get_database database st = (Ok db, st1) ->
  database_find db
    (mango_query query (dict_get_default "limit" (JNum 25) arguments)
       (dict_get_default "skip" (JNum 0) arguments))
    (world st1) = (res, w2) ->
  (dict_get "limit" arguments = None ->
   dict_get_default "limit" (JNum 25) arguments = JNum 25)
  /\ (dict_get "skip" arguments = None ->
      dict_get_default "skip" (JNum 0) arguments = JNum 0)
  /\ (exists l,
        log (snd (call_tool "couchdb_search_documents" arguments st))
        = (log st1
           ++ ReqFind db
                (mango_query query (dict_get_default "limit" (JNum 25) arguments)
                   (dict_get_default "skip" (JNum 0) arguments))
              :: l)%list)
  /\ (res = Ok [] ->
      call_tool "couchdb_search_documents" arguments st
      = (Ok [text_block
               (json_dumps (JObj [("docs", JArr []); ("count", JNum 0);
                                  ("note", JStr no_match_note)]))],
         after_call st1
           (ReqFind db
              (mango_query query (dict_get_default "limit" (JNum 25) arguments)
                 (dict_get_default "skip" (JNum 0) arguments))) w2))
  /\ (forall e w3 reply w4,
        res = Raise e -> exn_cls e = AttributeError ->
        server_getitem (db_server db) database w2 = (Ok tt, w3) ->
        resource_post_json db "_find"
          (mango_query query (dict_get_default "limit" (JNum 25) arguments)
             (dict_get_default "skip" (JNum 0) arguments)) w3 = (Ok reply, w4) ->
        py_len (dict_get_default "docs" (JArr []) reply) = Ok 0 ->
        fst (call_tool "couchdb_search_documents" arguments st)
        = Ok [text_block (json_dumps (JObj (fallback_response reply 0)))]
        /\ dict_get "count" (fallback_response reply 0) = Some (JNum 0)
        /\ dict_get "note" (fallback_response reply 0) = Some (JStr no_match_note))
  /\ contains "couchdb_list_documents" no_match_note.
Proof.
  intros Hd Hq Hdb Hf.
  destruct (opened_database database st st1 db Hdb) as [Hc Hdbeq].
  set (q := mango_query query (dict_get_default "limit" (JNum 25) arguments)
              (dict_get_default "skip" (JNum 0) arguments)) in *.
  assert (D : dispatch "couchdb_search_documents" arguments st
              = _search_documents database query
                  (dict_get_default "limit" (JNum 25) arguments)
                  (dict_get_default "skip" (JNum 0) arguments) st).
  { now rewrite (dispatch_search_documents arguments database query Hd Hq). }
  pose proof (search_documents_run database query _ _ st st1 db res w2 Hdb Hf) as R.
  fold q in R.
  split; [|split; [|split; [|split; [|split]]]].
  - intros H. unfold dict_get_default. now rewrite H.
  - intros H. unfold dict_get_default. now rewrite H.
  - rewrite call_tool_state, D, R.
    destruct res as [docs|e]; [exists []; reflexivity|].
    destruct (exn_cls e); try (exists []; reflexivity).
    destruct (_search_documents_fallback database query
                (dict_get_default "limit" (JNum 25) arguments)
                (dict_get_default "skip" (JNum 0) arguments)
                (after_call st1 (ReqFind db q) w2)) as [r st'] eqn:E.
    destruct (keeps_handlers (db_server db))
      as (_ & _ & _ & _ & _ & _ & _ & F & _).
    destruct (F _ _ _ _ (after_call st1 (ReqFind db q) w2) r st' Hc E)
      as [_ [l [Hl _]]].
    exists l. simpl. rewrite Hl. simpl. rewrite <- app_assoc. reflexivity.
  - intros ->. apply call_tool_passes. rewrite D, R. reflexivity.
  - intros e w3 reply w4 -> He Hopen Hpost Hlen.
    assert (Hc2 : couch (after_call st1 (ReqFind db q) w2) = Some (db_server db))
      by exact Hc.
    rewrite Hdbeq in Hpost.
    pose proof (search_fallback_run database query
                  (dict_get_default "limit" (JNum 25) arguments)
                  (dict_get_default "skip" (JNum 0) arguments)
                  (after_call st1 (ReqFind db q) w2) (db_server db) w3 w4 (Ok reply)
                  Hc2 Hopen Hpost) as Fb.
    cbv beta iota in Fb. rewrite Hlen in Fb.
    split; [|split].
    + erewrite call_tool_passes; [reflexivity|].
      rewrite D, R, He. exact Fb.
    + unfold fallback_response.
      destruct (truthy (dict_get_default "warning" JNull reply)); reflexivity.
    + unfold fallback_response.
      destruct (truthy (dict_get_default "warning" JNull reply)); reflexivity.
  - exists "No documents matched the query. To verify documents exist, use ",
      " with include_docs=true". reflexivity.
Qed.

Lemma search_defaults_and_empty_note_witness :
  call_tool "couchdb_search_documents" Sample.search_args
    (Sample.connected Sample.remote0)
  = (Ok [text_block
           (json_dumps (JObj [("docs", JArr []); ("count", JNum 0);
                              ("note", JStr no_match_note)]))],
     after_call
       (after_call (Sample.connected Sample.remote0)
          (ReqGetitem Sample.srv (JStr "notes")) Sample.remote0)
       (ReqFind Sample.db
          (JObj [("selector", JObj [("title", JStr "first")]);
                 ("limit", JNum 25); ("skip", JNum 0)]))
       Sample.remote0).
Proof.
  refine (proj1 (proj2 (proj2 (proj2
           (search_defaults_and_empty_note
              Sample.search_args (JStr "notes") (JObj [("title", JStr "first")])
              (Sample.connected Sample.remote0)
              (after_call (Sample.connected Sample.remote0)
                 (ReqGetitem Sample.srv (JStr "notes")) Sample.remote0)
              Sample.db (Ok []) Sample.remote0
              _ _ _ _)))) _);
    reflexivity.
Defined.




(** C3.  The warning of a [_find] reply reaches the output only on the raw
    path.  When the driver's [find] returns documents the output is the
    response built from those documents alone, and it has no [warning] key,
    whatever the server's reply carried; the fallback copies a warning that
    is true in Python's sense into its response, under [warning], as it
    is. *)
Theorem search_warning_only_on_raw_path
  {W : Type} {drv : Driver W} {py : Python}
  (arguments : dict) (database query : json) (st st1 : state W)
  (db : Database) (docs : list json) (w2 : W) :
  dict_get "database" arguments = Some database ->
  dict_get "query" arguments = Some query ->
  get_database database st = (Ok db, st1) ->
  database_find db
    (mango_query query (dict_get_default "limit" (JNum 25) arguments)
       (dict_get_default "skip" (JNum 0) arguments))
    (world st1) = (Ok docs, w2) ->
  call_tool "couchdb_search_documents" arguments st
  = (Ok [text_block (json_dumps (JObj (primary_response docs)))],
     after_call st1
       (ReqFind db
          (mango_query query (dict_get_default "limit" (JNum 25) arguments)
             (dict_get_default "skip" (JNum 0) arguments))) w2)
  /\ dict_get "warning" (primary_response docs) = None
  /\ (forall reply n,
        truthy (dict_get_default "warning" JNull reply) = true ->
        dict_get "warning" (fallback_response reply n)
        = Some (dict_get_default "warning" JNull reply))
  /\ (forall reply n,
        truthy (dict_get_default "warning" JNull reply) = false ->
        dict_get "warning" (fallback_response reply n) = None).
Proof.
  intros Hd Hq Hdb Hf. split; [|split; [|split]].
  - apply call_tool_passes.
    rewrite (dispatch_search_documents arguments database query Hd Hq).
    rewrite (search_documents_run database query _ _ st st1 db _ w2 Hdb Hf).
    reflexivity.
  - unfold primary_response. destruct docs; reflexivity.
  - intros reply n Ht. unfold fallback_response. rewrite Ht.
    destruct n; reflexivity.
  - intros reply n Ht. unfold fallback_response. rewrite Ht.
    destruct n; reflexivity.
Qed.

Lemma search_warning_only_on_raw_path_witness :
  MemCouch.find_reply (Sample.remote_warning true) = Ok Sample.reply_with_warning
  /\ dict_get "warning" Sample.reply_with_warning = Some Sample.index_warning
  /\ call_tool "couchdb_search_documents" Sample.search_args
       (Sample.connected (Sample.remote_warning true))
     = (Ok [text_block
              (json_dumps (JObj [("docs", JArr [JObj Sample.stored_note]);
                                 ("count", JNum 1)]))],
        after_call
          (after_call (Sample.connected (Sample.remote_warning true))
             (ReqGetitem Sample.srv (JStr "notes")) (Sample.remote_warning true))
          (ReqFind Sample.db
             (mango_query (JObj [("title", JStr "first")]) (JNum 25) (JNum 0)))
          (Sample.remote_warning true)).
Proof.
  split; [reflexivity|split; [reflexivity|]].
  refine (proj1 (search_warning_only_on_raw_path
                   Sample.search_args (JStr "notes") (JObj [("title", JStr "first")])
                   (Sample.connected (Sample.remote_warning true))
                   (after_call (Sample.connected (Sample.remote_warning true))
                      (ReqGetitem Sample.srv (JStr "notes"))
                      (Sample.remote_warning true))
                   Sample.db [JObj Sample.stored_note] (Sample.remote_warning true)
                   _ _ _ _));
    reflexivity.
Defined.

(** The same reply behind a driver without [find]: the raw path puts the
    warning into the output, and the two outputs differ. *)
Lemma search_warning_raw_path_sample :
  fst (call_tool "couchdb_search_documents" Sample.search_args
         (Sample.connected (Sample.remote_warning false)))
  = Ok [text_block
          (json_dumps (JObj [("docs", JArr [JObj Sample.stored_note]);
                             ("count", JNum 1);
                             ("warning", Sample.index_warning)]))]
  /\ fst (call_tool "couchdb_search_documents" Sample.search_args
            (Sample.connected (Sample.remote_warning false)))
     <> fst (call_tool "couchdb_search_documents" Sample.search_args
               (Sample.connected (Sample.remote_warning true))).
Proof.
  split; [reflexivity|]. vm_compute. discriminate.
Qed.

(** A failed lazy connect under a handler that has its own catch-all does
    not reach the dispatcher: [_create_document] renders it itself. *)
Lemma create_document_connect_failure
  {W : Type} {drv : Driver W} {py : Python}
  (database document doc_id : json) (st st' : state W) (e : exn) :
  couch st = None ->
  connect st = (Raise e, st') ->
  _create_document database document doc_id st
  = (Ok [text_block ("Error creating document: " ++ exn_str e)], st').
Proof.
  intros Hc He. unfold _create_document, try_except, get_database.
  unfold bind at 1. unfold bind at 1.
  rewrite (get_server_connect_fails st st' e Hc He).
  destruct (connect_raises st st' e He) as [cause ->]. reflexivity.
Qed.

(** ** The connection attempt and the process *)

Section Process.

Context {W : Type} {drv : Driver W} {py : Python}.

Lemma total_ret (A : Type) (a : A) : total (ret (W:=W) a).
Proof. intros st. now exists a, st. Qed.

Lemma total_try (A : Type) (body : M W A) (handler : exn -> M W A) :
  (forall e, total (handler e)) -> total (try_except body handler).
Proof.
  intros H st. unfold try_except.
  destruct (body st) as [[a|e] st1]; [now exists a, st1|apply H].
Qed.

Lemma call_tool_total (name : string) (arguments : dict) :
  total (call_tool name arguments).
Proof. unfold call_tool. apply total_try. intros e. apply total_ret. Qed.

Lemma call_tool_one_block (name : string) (arguments : dict) :
  one_block (call_tool name arguments).
Proof.
  unfold call_tool. apply one_block_try; [apply one_block_dispatch|].
  intros e. apply one_block_ret.
Qed.

Lemma serve_results (calls : list (string * dict)) (st : state W) :
  exists rs st',
    serve calls st = (Ok rs, st')
    /\ List.length rs = List.length calls
    /\ Forall (fun r => exists s, r = [text_block s]) rs.
Proof.
  revert st. induction calls as [|[name arguments] rest IH]; intros st.
  - exists [], st. repeat split. constructor.
  - simpl. unfold bind.
    destruct (call_tool_total name arguments st) as [r [st1 Hr]]. rewrite Hr.
    destruct (IH st1) as [rs [st2 [Hs [Hl Hf]]]]. rewrite Hs.
    exists (r :: rs), st2. split; [reflexivity|]. split; [simpl; now rewrite Hl|].
    constructor; [|exact Hf].
    exact (call_tool_one_block name arguments st r st1 Hr).
Qed.

End Process.

Lemma connect_url {W : Type} {drv : Driver W} (st : state W) :
  url (snd (connect st)) = url st.
Proof.
  unfold connect, try_except, bind, new_server, set_couch, call, get_url, raise, ret.
  destruct (server_new (url st) (world st)) as [[[]|e0] w1]; cbn; [|reflexivity].
  destruct (server_version _ w1) as [[v|e1] w2]; reflexivity.
Qed.


(** X2.  [main]'s start-up never raises: a failed connection attempt is
    swallowed, and the program's URL is unchanged. *)
Theorem startup_always_returns
  {W : Type} {drv : Driver W} (st : state W) :
  exists st', startup st = (Ok tt, st') /\ url st' = url st.
Proof.
  unfold startup, try_except, bind.
  pose proof (connect_url st) as Hu.
  destruct (connect st) as [[b|e] st'] eqn:E; simpl in Hu.
  - exists st'. split; [reflexivity|exact Hu].
  - destruct (connect_raises st st' e E) as [cause ->]. cbn.
    exists st'. split; [reflexivity|exact Hu].
Qed.

(** X3.  When the start-up builds the server object and its probe fails,
    the unprobed object stays as the handle: the whole run returns, ends
    with that handle, and after the two start-up requests no tool call
    connects or probes again. *)
Theorem failed_probe_is_never_retried
  {W : Type} {drv : Driver W} {py : Python}
  (u : string) (w w1 w2 : W) (e : exn) (calls : list (string * dict)) :
  server_new u w = (Ok tt, w1) ->
  server_version {| server_oid := 0; server_url := u |} w1 = (Raise e, w2) ->
  exists rs st',
    main calls (init u w) = (Ok rs, st')
    /\ couch st' = Some {| server_oid := 0; server_url := u |}
    /\ exists l,
         log st' = ([ReqServer u; ReqVersion {| server_oid := 0; server_url := u |}]
                    ++ l)%list
         /\ quiet l = true.
Proof.
  intros Hn Hv. unfold main. unfold bind at 1.
  assert (S : startup (init u w)
              = (Ok tt,
                 {| url := u; couch := Some {| server_oid := 0; server_url := u |};
                    next_oid := 1; world := w2;
                    log := [ReqServer u;
                            ReqVersion {| server_oid := 0; server_url := u |}] |})).
  { unfold startup, connect, try_except, bind, new_server, set_couch, call, get_url,
      raise, ret, init. cbn. rewrite Hn. cbn. rewrite Hv. cbn. reflexivity. }
  rewrite S.
  match goal with |- context [serve calls ?s] => set (st1 := s) end.
  destruct (serve_results calls st1) as [rs [st' [E _]]]. rewrite E.
  destruct (keeps_serve {| server_oid := 0; server_url := u |} calls st1 _ st'
              eq_refl E) as [Hc [l [Hl Hq]]].
  exists rs, st'. split; [reflexivity|split; [exact Hc|]].
  exists l. split; [exact Hl|exact Hq].
Qed.

Lemma failed_probe_is_never_retried_witness :
  exists rs st',
    main [("couchdb_list_databases", []); ("couchdb_list_databases", [])]
      (init Sample.url0 Sample.remote_down) = (Ok rs, st')
    /\ couch st' = Some Sample.srv
    /\ exists l,
         log st' = ([ReqServer Sample.url0; ReqVersion Sample.srv] ++ l)%list
         /\ quiet l = true.
Proof.
  apply (failed_probe_is_never_retried
           Sample.url0 Sample.remote_down Sample.remote_down Sample.remote_down
           MemCouch.refused
           [("couchdb_list_databases", []); ("couchdb_list_databases", [])]);
    reflexivity.
Defined.

(** X4.  The serving loop answers every call: [serve] never raises, gives
    one result per call, each a single text block, and serving two batches
    in a row is serving the first and then the second from the state the
    first left. *)
Theorem serve_answers_every_call
  {W : Type} {drv : Driver W} {py : Python}
  (calls more : list (string * dict)) (st : state W) :
  (exists rs st',
      serve calls st = (Ok rs, st')
      /\ List.length rs = List.length calls
      /\ Forall (fun r => exists s, r = [text_block s]) rs)
  /\ snd (serve (calls ++ more) st) = snd (serve more (snd (serve calls st)))
  /\ (forall rs1 rs2,
        fst (serve calls st) = Ok rs1 ->
        fst (serve more (snd (serve calls st))) = Ok rs2 ->
        fst (serve (calls ++ more) st) = Ok (rs1 ++ rs2)%list).
Proof.
  pose proof (@serve_results W drv py) as T.
  split; [apply T|].
  revert st. induction calls as [|[name arguments] rest IH]; intros st.
  - simpl. split; [reflexivity|]. intros rs1 rs2 H1 H2. inversion H1; subst. exact H2.
  - simpl. unfold bind.
    destruct (call_tool_total name arguments st) as [r [st1 Hr]]. rewrite Hr.
    destruct (IH st1) as [IHs IHr].
    destruct (T rest st1) as [rsa [sta [Ha _]]].
    destruct (T (rest ++ more)%list st1) as [rsb [stb [Hb _]]].
    rewrite Ha in *. rewrite Hb in *. cbn in *. split; [exact IHs|].
    intros rs1 rs2 H1 H2. inversion H1; subst rs1.
    specialize (IHr rsa rs2 eq_refl H2). inversion IHr; subst. reflexivity.
Qed.

(** ** What each handler makes of a failure *)

Section Mapping.

Context {W : Type} {drv : Driver W} {py : Python}.

Lemma dispatch_by_name (arguments : dict) (database : json) :
  dict_get "database" arguments = Some database ->
  (forall doc_id rev,
      dict_get "doc_id" arguments = Some doc_id ->
      dict_get "rev" arguments = Some rev ->
      dispatch "couchdb_delete_document" arguments
      = _delete_document database doc_id rev)
  /\ dispatch "couchdb_list_documents" arguments
     = _list_documents database
         (dict_get_default "limit" JNull arguments)
         (dict_get_default "include_docs" (JBool false) arguments)
  /\ (forall fields,
        dict_get "fields" arguments = Some fields ->
        dispatch "couchdb_create_index" arguments
        = _create_index database fields (dict_get_default "index_name" JNull arguments))
  /\ dispatch "couchdb_list_indexes" arguments = _list_indexes database.
Proof.
  intros Hd. split; [|split; [|split]].
  - intros doc_id rev H1 H2. unfold dispatch. cbn [String.eqb Ascii.eqb Bool.eqb].
    unfold subscript. rewrite Hd, H1, H2. reflexivity.
  - unfold dispatch. cbn [String.eqb Ascii.eqb Bool.eqb].
    unfold subscript. rewrite Hd. reflexivity.
  - intros fields H1. unfold dispatch. cbn [String.eqb Ascii.eqb Bool.eqb].
    unfold subscript. rewrite Hd, H1. reflexivity.
  - unfold dispatch. cbn [String.eqb Ascii.eqb Bool.eqb].
    unfold subscript. rewrite Hd. reflexivity.
Qed.

Lemma dispatch_database_tools (arguments : dict) (name : json) :
  dict_get "name" arguments = Some name ->
  dispatch "couchdb_create_database" arguments = _create_database name
  /\ dispatch "couchdb_delete_database" arguments = _delete_database name.
Proof.
  intros H. split; unfold dispatch; cbn [String.eqb Ascii.eqb Bool.eqb];
    unfold subscript; rewrite H; reflexivity.
Qed.

Lemma call_tool_value (name : string) (arguments : dict) (st : state W) :
  call_tool name arguments st
  = match dispatch name arguments st with
    | (Ok r, st') => (Ok r, st')
    | (Raise e, st') => (Ok [text_block ("Error: " ++ exn_str e)], st')
    end.
Proof. reflexivity. Qed.

End Mapping.

(** X5.  The seven handlers that end in [except Exception] never raise,
    whatever the driver does and whatever values they are given. *)
Theorem handlers_with_catch_all_never_raise
  {W : Type} {drv : Driver W} {py : Python} :
  (forall a b c, total (_create_document a b c))
  /\ (forall a b c, total (_update_document a b c))
  /\ (forall a b c d, total (_search_documents_fallback a b c d))
  /\ (forall a b c d, total (_search_documents a b c d))
  /\ (forall a b c, total (_list_documents a b c))
  /\ (forall a b c, total (_create_index a b c))
  /\ (forall a, total (_list_indexes a)).
Proof.
  repeat match goal with |- _ /\ _ => split end; intros;
    unfold _create_document, _update_document, _search_documents,
      _list_documents, _create_index, _list_indexes;
    try apply search_fallback_total;
    apply total_try; intros e; destruct (exn_cls e);
    first [apply total_ret | apply search_fallback_total].
Qed.



(** X7.  When opening the database raises [ResourceNotFound] instead, no
    "Database ... not found" clause applies: [get_document] and
    [delete_document] answer that the document was not found, and the
    handlers with a catch-all answer with their generic error text. *)
Theorem unopened_database_resource_not_found
  {W : Type} {drv : Driver W} {py : Python}
  (database : json) (st st1 : state W) (e : exn) :
  get_database database st = (Raise e, st1) ->
  exn_cls e = ResourceNotFound ->
  (forall doc_id,
      _get_document database doc_id st
      = (Ok [text_block ("Document '" ++ py_str doc_id ++ "' not found")], st1))
  /\ (forall doc_id rev,
        _delete_document database doc_id rev st
        = (Ok [text_block ("Document '" ++ py_str doc_id ++ "' not found")], st1))
  /\ (forall document doc_id,
        _create_document database document doc_id st
        = (Ok [text_block ("Error creating document: " ++ exn_str e)], st1))
  /\ (forall doc_id document,
        _update_document database doc_id document st
        = (Ok [text_block ("Error updating document: " ++ exn_str e)], st1))
  /\ (forall query limit skip,
        _search_documents database query limit skip st
        = (Ok [text_block ("Error searching documents: " ++ exn_str e)], st1))
  /\ (forall limit include_docs,
        _list_documents database limit include_docs st
        = (Ok [text_block ("Error listing documents: " ++ exn_str e)], st1))
  /\ (forall fields index_name,
        _create_index database fields index_name st
        = (Ok [text_block ("Error creating index: " ++ exn_str e)], st1))
  /\ _list_indexes database st
     = (Ok [text_block ("Error listing indexes: " ++ exn_str e)], st1).
Proof.
  intros H He.
  repeat match goal with |- _ /\ _ => split end; intros;
    unfold _create_document, _get_document, _update_document, _delete_document,
      _search_documents, _list_documents, _create_index, _list_indexes, try_except;
    unfold bind at 1; rewrite H, He; reflexivity.
Qed.

Lemma unopened_database_resource_not_found_witness :
  _get_document (JStr "nowhere") (JStr "n1") (Sample.connected Sample.remote0)
  = (Ok [text_block "Document 'n1' not found"],
     after_call (Sample.connected Sample.remote0)
       (ReqGetitem Sample.srv (JStr "nowhere")) Sample.remote0).
Proof.
  apply (unopened_database_resource_not_found
           (JStr "nowhere") (Sample.connected Sample.remote0)
           (after_call (Sample.connected Sample.remote0)
              (ReqGetitem Sample.srv (JStr "nowhere")) Sample.remote0)
           MemCouch.no_db);
    reflexivity.
Defined.

(** X8.  [get_document] on a database that opens: the output is
    [json.dumps] of what [db[doc_id]] gives; a [KeyError] and a
    [ResourceNotFound] from the fetch get the two "not found" texts; an
    exception of any other class leaves the handler and is rendered by the
    dispatcher as "Error: <str(e)>".  The fetch is the last request. *)
Theorem get_document_outcomes
  {W : Type} {drv : Driver W} {py : Python}
  (arguments : dict) (database doc_id : json) (st st1 : state W)
  (db : Database) (res : outcome json) (w2 : W) :
  dict_get "database" arguments = Some database ->
  dict_get "doc_id" arguments = Some doc_id ->
  get_database database st = (Ok db, st1) ->
  database_getitem db doc_id (world st1) = (res, w2) ->
  call_tool "couchdb_get_document" arguments st
  = (Ok [text_block
           match res with
           | Ok doc => json_dumps doc
           | Raise e =>
               match exn_cls e with
               | KeyError =>
                   "Database '" ++ py_str database ++ "' or document '"
                   ++ py_str doc_id ++ "' not found"
               | ResourceNotFound => "Document '" ++ py_str doc_id ++ "' not found"
               | _ => "Error: " ++ exn_str e
               end
           end],
     after_call st1 (ReqDocGetitem db doc_id) w2).
Proof.
  intros Hd Hid Hdb Hg. rewrite call_tool_value.
  rewrite (dispatch_get_document arguments database doc_id Hd Hid).
  unfold _get_document, try_except. unfold bind at 1. rewrite Hdb.
  unfold bind, call. rewrite Hg. unfold after_call, ret.
  destruct res as [doc|e]; [reflexivity|].
  destruct (exn_cls e); reflexivity.
Qed.

Lemma get_document_outcomes_witness :
  call_tool "couchdb_get_document"
    [("database", JStr "notes"); ("doc_id", JStr "n2")]
    (Sample.connected Sample.remote0)
  = (Ok [text_block "Document 'n2' not found"],
     after_call
       (after_call (Sample.connected Sample.remote0)
          (ReqGetitem Sample.srv (JStr "notes")) Sample.remote0)
       (ReqDocGetitem Sample.db (JStr "n2")) Sample.remote0).
Proof.
  apply (get_document_outcomes
           [("database", JStr "notes"); ("doc_id", JStr "n2")]
           (JStr "notes") (JStr "n2")
           (Sample.connected Sample.remote0)
           (after_call (Sample.connected Sample.remote0)
              (ReqGetitem Sample.srv (JStr "notes")) Sample.remote0)
           Sample.db (Raise MemCouch.not_found) Sample.remote0);
    reflexivity.
Defined.

(** X9.  [delete_document] on a database that opens sends one delete for
    the object [{_id: doc_id, _rev: rev}] and nothing else; it confirms the
    deletion, maps [ResourceNotFound] and [ResourceConflict] to their
    texts, and lets any other class through to the dispatcher. *)
Theorem delete_document_outcomes
  {W : Type} {drv : Driver W} {py : Python}
  (arguments : dict) (database doc_id rev : json) (st st1 : state W)
  (db : Database) (res : outcome unit) (w2 : W) :
  dict_get "database" arguments = Some database ->
  dict_get "doc_id" arguments = Some doc_id ->
  dict_get "rev" arguments = Some rev ->
  get_database database st = (Ok db, st1) ->
  database_delete db (JObj [("_id", doc_id); ("_rev", rev)]) (world st1) = (res, w2) ->
  call_tool "couchdb_delete_document" arguments st
  = (Ok [text_block
           match res with
           | Ok _ => "Document '" ++ py_str doc_id ++ "' deleted successfully"
           | Raise e =>
               match exn_cls e with
               | KeyError => "Database '" ++ py_str database ++ "' not found"
               | ResourceNotFound => "Document '" ++ py_str doc_id ++ "' not found"
               | ResourceConflict => "Document delete conflict - revision mismatch"
               | _ => "Error: " ++ exn_str e
               end
           end],
     after_call st1 (ReqDocDelete db (JObj [("_id", doc_id); ("_rev", rev)])) w2).
Proof.
  intros Hd Hid Hrev Hdb Hdel. rewrite call_tool_value.
  rewrite (proj1 (dispatch_by_name arguments database Hd) doc_id rev Hid Hrev).
  unfold _delete_document, try_except. unfold bind at 1. rewrite Hdb.
  unfold bind, call. rewrite Hdel. unfold after_call, ret.
  destruct res as [[]|e]; [reflexivity|].
  destruct (exn_cls e); reflexivity.
Qed.

Lemma delete_document_outcomes_witness :
  call_tool "couchdb_delete_document"
    [("database", JStr "notes"); ("doc_id", JStr "n1"); ("rev", JStr "0-old")]
    (Sample.connected Sample.remote0)
  = (Ok [text_block "Document delete conflict - revision mismatch"],
     after_call
       (after_call (Sample.connected Sample.remote0)
          (ReqGetitem Sample.srv (JStr "notes")) Sample.remote0)
       (ReqDocDelete Sample.db (JObj [("_id", JStr "n1"); ("_rev", JStr "0-old")]))
       Sample.remote0).
Proof.
  apply (delete_document_outcomes
           [("database", JStr "notes"); ("doc_id", JStr "n1"); ("rev", JStr "0-old")]
           (JStr "notes") (JStr "n1") (JStr "0-old")
           (Sample.connected Sample.remote0)
           (after_call (Sample.connected Sample.remote0)
              (ReqGetitem Sample.srv (JStr "notes")) Sample.remote0)
           Sample.db (Raise MemCouch.conflict) Sample.remote0);
    reflexivity.
Defined.

(** X10.  [create_database] and [delete_database] with a server handle at
    hand send one request.  Creation is confirmed, [PreconditionFailed]
    becomes "already exists"; deletion is confirmed, [ResourceNotFound]
    becomes "not found"; every other class reaches the dispatcher. *)
Theorem database_tools_outcomes
  {W : Type} {drv : Driver W} {py : Python}
  (arguments : dict) (name : json) (st st1 : state W) (s : Server) :
  dict_get "name" arguments = Some name ->
  _get_server st = (Ok s, st1) ->
  (forall res w2,
      server_create s name (world st1) = (res, w2) ->
      call_tool "couchdb_create_database" arguments st
      = (Ok [text_block
               match res with
               | Ok _ => "Database '" ++ py_str name ++ "' created successfully"
               | Raise e =>
                   match exn_cls e with
                   | PreconditionFailed =>
                       "Database '" ++ py_str name ++ "' already exists"
                   | _ => "Error: " ++ exn_str e
                   end
               end],
         after_call st1 (ReqCreate s name) w2))
  /\ (forall res w2,
        server_delete s name (world st1) = (res, w2) ->
        call_tool "couchdb_delete_database" arguments st
        = (Ok [text_block
                 match res with
                 | Ok _ => "Database '" ++ py_str name ++ "' deleted successfully"
                 | Raise e =>
                     match exn_cls e with
                     | ResourceNotFound =>
                         "Database '" ++ py_str name ++ "' not found"
                     | _ => "Error: " ++ exn_str e
                     end
                 end],
           after_call st1 (ReqDelete s name) w2)).
Proof.
  intros Hn Hs. destruct (dispatch_database_tools arguments name Hn) as [Dc Dd].
  split; intros res w2 Hr; rewrite call_tool_value.
  - rewrite Dc. unfold _create_database, try_except. unfold bind at 1. rewrite Hs.
    unfold bind, call. rewrite Hr. unfold after_call, ret.
    destruct res as [[]|e]; [reflexivity|]. destruct (exn_cls e); reflexivity.
  - rewrite Dd. unfold _delete_database, try_except. unfold bind at 1. rewrite Hs.
    unfold bind, call. rewrite Hr. unfold after_call, ret.
    destruct res as [[]|e]; [reflexivity|]. destruct (exn_cls e); reflexivity.
Qed.

Lemma database_tools_outcomes_witness :
  call_tool "couchdb_create_database" [("name", JStr "notes")]
    (Sample.connected Sample.remote0)
  = (Ok [text_block "Database 'notes' already exists"],
     after_call (Sample.connected Sample.remote0)
       (ReqCreate Sample.srv (JStr "notes")) Sample.remote0).
Proof.
  apply (proj1 (database_tools_outcomes
                  [("name", JStr "notes")] (JStr "notes")
                  (Sample.connected Sample.remote0) (Sample.connected Sample.remote0)
                  Sample.srv eq_refl eq_refl)
           (Raise MemCouch.exists_already) Sample.remote0).
  reflexivity.
Defined.

(** X11.  [list_databases] with a server handle at hand: the output lists
    the names the driver gives, with their number as the count; a driver
    error reaches the dispatcher, the handler having no clause of its
    own. *)
Theorem list_databases_outcomes
  {W : Type} {drv : Driver W} {py : Python}
  (arguments : dict) (st st1 : state W) (s : Server)
  (res : outcome (list json)) (w2 : W) :
  _get_server st = (Ok s, st1) ->
  server_iter s (world st1) = (res, w2) ->
  call_tool "couchdb_list_databases" arguments st
  = (Ok [text_block
           match res with
           | Ok databases =>
               json_dumps (JObj [("databases", JArr databases);
                                 ("count", JNum (Z.of_nat (List.length databases)))])
           | Raise e => "Error: " ++ exn_str e
           end],
     after_call st1 (ReqIter s) w2).
Proof.
  intros Hs Hr. rewrite call_tool_value. unfold dispatch.
  cbn [String.eqb Ascii.eqb Bool.eqb].
  unfold _list_databases. unfold bind at 1. rewrite Hs.
  unfold bind, call. rewrite Hr. unfold after_call, ret.
  destruct res; reflexivity.
Qed.

Lemma list_databases_outcomes_witness :
  call_tool "couchdb_list_databases" [] (Sample.connected Sample.remote0)
  = (Ok [text_block
           (json_dumps (JObj [("databases", JArr [JStr "notes"]); ("count", JNum 1)]))],
     after_call (Sample.connected Sample.remote0) (ReqIter Sample.srv) Sample.remote0).
Proof.
  apply (list_databases_outcomes [] (Sample.connected Sample.remote0)
           (Sample.connected Sample.remote0) Sample.srv
           (Ok [JStr "notes"]) Sample.remote0);
    reflexivity.
Defined.

(** ** Listing, indexes and updates *)

(** X12.  [list_documents] on a database that opens asks the [_all_docs]
    view once.  The parameters carry [include_docs] ([False] when absent)
    and carry [limit] only when one is given and is not [None].  The output
    has one entry per row, in order, and their number as the count; an entry
    is the row's document when [include_docs] is true in Python's sense and
    the triple [{id, key, value}] otherwise. *)
Theorem list_documents_output
  {W : Type} {drv : Driver W} {py : Python}
  (arguments : dict) (database : json) (st st1 : state W)
  (db : Database) (rows : list Row) (w2 : W) :
  dict_get "database" arguments = Some database ->
  get_database database st = (Ok db, st1) ->
  database_view db "_all_docs"
    (view_params (dict_get_default "limit" JNull arguments)
       (dict_get_default "include_docs" (JBool false) arguments))
    (world st1) = (Ok rows, w2) ->
  call_tool "couchdb_list_documents" arguments st
  = (Ok [text_block
           (json_dumps
              (JObj [("documents",
                      JArr (map (row_entry
                                   (dict_get_default "include_docs" (JBool false) arguments))
                              rows));
                     ("count", JNum (Z.of_nat (List.length rows)))]))],
     after_call st1
       (ReqView db "_all_docs"
          (view_params (dict_get_default "limit" JNull arguments)
             (dict_get_default "include_docs" (JBool false) arguments))) w2)
  /\ (dict_get_default "limit" JNull arguments = JNull ->
      view_params (dict_get_default "limit" JNull arguments)
        (dict_get_default "include_docs" (JBool false) arguments)
      = [("include_docs", dict_get_default "include_docs" (JBool false) arguments)])
  /\ (dict_get_default "limit" JNull arguments <> JNull ->
      view_params (dict_get_default "limit" JNull arguments)
        (dict_get_default "include_docs" (JBool false) arguments)
      = [("include_docs", dict_get_default "include_docs" (JBool false) arguments);
         ("limit", dict_get_default "limit" JNull arguments)])
  /\ (forall row,
        truthy (dict_get_default "include_docs" (JBool false) arguments) = false ->
        row_entry (dict_get_default "include_docs" (JBool false) arguments) row
        = JObj [("id", row_id row); ("key", row_key row); ("value", row_value row)])
  /\ (forall row,
        truthy (dict_get_default "include_docs" (JBool false) arguments) = true ->
        row_entry (dict_get_default "include_docs" (JBool false) arguments) row
        = row_doc row)
  /\ (dict_get "include_docs" arguments = None ->
      truthy (dict_get_default "include_docs" (JBool false) arguments) = false).
Proof.
  intros Hd Hdb Hv.
  split; [|split; [|split; [|split; [|split]]]].
  - apply call_tool_passes.
    rewrite (proj1 (proj2 (dispatch_by_name arguments database Hd))).
    unfold _list_documents, try_except. unfold bind at 1. rewrite Hdb.
    unfold bind, call. rewrite Hv. unfold after_call, ret.
    rewrite length_map. reflexivity.
  - intros H. rewrite H. reflexivity.
  - intros H. unfold view_params.
    destruct (dict_get_default "limit" JNull arguments); try reflexivity.
    contradiction.
  - intros row H. unfold row_entry. now rewrite H.
  - intros row H. unfold row_entry. now rewrite H.
  - intros H. unfold dict_get_default. now rewrite H.
Qed.

Lemma list_documents_output_witness :
  call_tool "couchdb_list_documents" [("database", JStr "notes")]
    (Sample.connected Sample.remote0)
  = (Ok [text_block
           (json_dumps
              (JObj [("documents",
                      JArr [JObj [("id", JStr "n1"); ("key", JStr "n1");
                                  ("value", JObj [("rev", JStr "1-mem")])]]);
                     ("count", JNum 1)]))],
     after_call
       (after_call (Sample.connected Sample.remote0)
          (ReqGetitem Sample.srv (JStr "notes")) Sample.remote0)
       (ReqView Sample.db "_all_docs" [("include_docs", JBool false)])
       Sample.remote0).
Proof.
  apply (list_documents_output
           [("database", JStr "notes")] (JStr "notes")
           (Sample.connected Sample.remote0)
           (after_call (Sample.connected Sample.remote0)
              (ReqGetitem Sample.srv (JStr "notes")) Sample.remote0)
           Sample.db
           [MemCouch.row_of false ("n1", Sample.stored_note)]
           Sample.remote0);
    reflexivity.
Defined.





(** X15.  [update_document] for a JSON object on a database that opens
    saves the object with an [_id]: its own if it has one, [doc_id]
    otherwise, whatever [doc_id] is (there is no test for an empty one);
    no other key is touched.  An accepted save is reported with the id and
    revision the database returned; a [KeyError] from the save reads
    "Database ... not found", a [ResourceConflict] is the conflict message,
    any other exception "Error updating document: <str(e)>". *)
Theorem update_document_outcomes
  {W : Type} {drv : Driver W} {py : Python}
  (arguments : dict) (database doc_id : json) (d : dict) (st st1 : state W)
  (db : Database) (res : outcome (json * json)) (w2 : W) :
  dict_get "database" arguments = Some database ->
  dict_get "doc_id" arguments = Some doc_id ->
  dict_get "document" arguments = Some (JObj d) ->
  get_database database st = (Ok db, st1) ->
  database_save db (JObj (if dict_mem "_id" d then d else dict_set "_id" doc_id d))
    (world st1) = (res, w2) ->
  call_tool "couchdb_update_document" arguments st
  = (Ok [text_block
           match res with
           | Ok saved =>
               json_dumps (JObj [("id", fst saved); ("rev", snd saved);
                                 ("message", JStr "Document updated successfully")])
           | Raise e =>
               match exn_cls e with
               | KeyError => "Database '" ++ py_str database ++ "' not found"
               | ResourceConflict => update_conflict_message
               | _ => "Error updating document: " ++ exn_str e
               end
           end],
     after_call st1
       (ReqSave db (JObj (if dict_mem "_id" d then d else dict_set "_id" doc_id d)))
       w2)
  /\ dict_get "_id" (if dict_mem "_id" d then d else dict_set "_id" doc_id d)
     = Some (dict_get_default "_id" doc_id d)
  /\ (forall k, k <> "_id" ->
        dict_get k (if dict_mem "_id" d then d else dict_set "_id" doc_id d)
        = dict_get k d).
Proof.
  intros Hd Hid Hdoc Hdb Hs.
  assert (Hp : update_payload (JObj d) doc_id
               = Ok (JObj (if dict_mem "_id" d then d else dict_set "_id" doc_id d))).
  { unfold update_payload, py_in, py_setitem. destruct (dict_mem "_id" d); reflexivity. }
  split; [|split].
  - apply call_tool_passes.
    rewrite (dispatch_update_document arguments _ _ _ Hd Hid Hdoc).
    exact (update_document_saved _ _ _ st st1 db _ res w2 Hdb Hp Hs).
  - unfold dict_mem, dict_get_default.
    destruct (dict_get "_id" d) eqn:E; [exact E|apply dict_get_set_same].
  - intros k Hk. destruct (dict_mem "_id" d); [reflexivity|].
    now apply dict_get_set_other.
Qed.

Lemma update_document_outcomes_witness :
  call_tool "couchdb_update_document"
    [("database", JStr "notes"); ("doc_id", JStr "n1");
     ("document", JObj [("title", JStr "second"); ("_rev", JStr "1-mem")])]
    (Sample.connected Sample.remote0)
  = (Ok [text_block
           (json_dumps (JObj [("id", JStr "n1"); ("rev", JStr "2-mem");
                              ("message", JStr "Document updated successfully")]))],
     after_call
       (after_call (Sample.connected Sample.remote0)
          (ReqGetitem Sample.srv (JStr "notes")) Sample.remote0)
       (ReqSave Sample.db
          (JObj [("title", JStr "second"); ("_rev", JStr "1-mem"); ("_id", JStr "n1")]))
       (MemCouch.with_dbs Sample.remote0
          [("notes",
            [("n1", [("title", JStr "second"); ("_rev", JStr "2-mem");
                     ("_id", JStr "n1")])])])).
Proof.
  apply (update_document_outcomes
           [("database", JStr "notes"); ("doc_id", JStr "n1");
            ("document", JObj [("title", JStr "second"); ("_rev", JStr "1-mem")])]
           (JStr "notes") (JStr "n1")
           [("title", JStr "second"); ("_rev", JStr "1-mem")]
           (Sample.connected Sample.remote0)
           (after_call (Sample.connected Sample.remote0)
              (ReqGetitem Sample.srv (JStr "notes")) Sample.remote0)
           Sample.db (Ok (JStr "n1", JStr "2-mem"))
           (MemCouch.with_dbs Sample.remote0
              [("notes",
                [("n1", [("title", JStr "second"); ("_rev", JStr "2-mem");
                         ("_id", JStr "n1")])])]));
    reflexivity.
Defined.

(** X16.  Both entry points choose the URL alike: the first command-line
    argument if there is one, else the environment variable [COUCHDB_URL]
    if it is set, else the default. *)
Theorem both_mains_choose_the_same_url
  (argv : list string) (environ : list (string * string)) :
  server_main_url argv environ = test_main_url argv environ
  /\ (forall script a rest,
        argv = script :: a :: rest -> server_main_url argv environ = a)
  /\ (forall v,
        List.length argv <= 1 -> getenv "COUCHDB_URL" environ = Some v ->
        server_main_url argv environ = v)
  /\ (List.length argv <= 1 -> getenv "COUCHDB_URL" environ = None ->
      server_main_url argv environ = default_url).
Proof.
  unfold server_main_url, test_main_url.
  split; [|split; [|split]].
  - destruct argv as [|script [|a rest]]; simpl; try reflexivity.
  - intros script a rest ->. reflexivity.
  - intros v Hl Hv. rewrite Hv.
    destruct argv as [|script [|a rest]]; simpl in *; try reflexivity. lia.
  - intros Hl Hv. rewrite Hv.
    destruct argv as [|script [|a rest]]; simpl in *; try reflexivity. lia.
Qed.

Lemma both_mains_choose_the_same_url_witness :
  server_main_url ["couchdb_mcp_server.py"; "http://db.example:5984"]
    [("COUCHDB_URL", "http://other:5984")]
  = "http://db.example:5984".
Proof.
  apply (proj1 (proj2 (both_mains_choose_the_same_url
                         ["couchdb_mcp_server.py"; "http://db.example:5984"]
                         [("COUCHDB_URL", "http://other:5984")]))
           "couchdb_mcp_server.py" "http://db.example:5984" []).
  reflexivity.
Defined.

(** ** What a tool call sends *)

Section Traffic.

Context {W : Type} {drv : Driver W} {py : Python}.

Variable P : request -> bool.
Hypothesis P_connect : forall r, is_connect r = true -> P r = true.

Lemma sends_nothing {A : Type} (m : M W A) :
  (forall st, log (snd (m st)) = log st) -> sends P m.
Proof.
  intros H st r st' E. exists []. rewrite app_nil_r.
  specialize (H st). rewrite E in H. simpl in H. split; [exact H|reflexivity].
Qed.

Lemma sends_bind (A B : Type) (m : M W A) (k : A -> M W B) :
  sends P m -> (forall a, sends P (k a)) -> sends P (bind m k).
Proof.
  intros Hm Hk st r st' H. unfold bind in H.
  destruct (m st) as [[a|e] st1] eqn:E.
  - destruct (Hm _ _ _ E) as [l1 [Hl1 Hq1]].
    destruct (Hk a _ _ _ H) as [l2 [Hl2 Hq2]].
    exists (l1 ++ l2)%list. rewrite Hl2, Hl1, app_assoc. split; [reflexivity|].
    rewrite forallb_app, Hq1, Hq2. reflexivity.
  - inversion H; subst. exact (Hm _ _ _ E).
Qed.

Lemma sends_try (A : Type) (body : M W A) (handler : exn -> M W A) :
  sends P body -> (forall e, sends P (handler e)) -> sends P (try_except body handler).
Proof.
  intros Hm Hk st r st' H. unfold try_except in H.
  destruct (body st) as [[a|e] st1] eqn:E.
  - inversion H; subst. exact (Hm _ _ _ E).
  - destruct (Hm _ _ _ E) as [l1 [Hl1 Hq1]].
    destruct (Hk e _ _ _ H) as [l2 [Hl2 Hq2]].
    exists (l1 ++ l2)%list. rewrite Hl2, Hl1, app_assoc. split; [reflexivity|].
    rewrite forallb_app, Hq1, Hq2. reflexivity.
Qed.

Lemma sends_call (A : Type) (r : request) (op : W -> outcome A * W) :
  P r = true -> sends P (call r op).
Proof.
  intros Hr st res st' H. unfold call in H.
  destruct (op (world st)) as [res' w']. inversion H; subst. simpl.
  exists [r]. split; [reflexivity|]. simpl. now rewrite Hr.
Qed.

Lemma sends_ret (A : Type) (a : A) : sends P (ret (W:=W) a).
Proof. apply sends_nothing. reflexivity. Qed.

Lemma sends_raise (A : Type) (e : exn) : sends P (raise (W:=W) (A:=A) e).
Proof. apply sends_nothing. reflexivity. Qed.

Lemma sends_lift (A : Type) (o : outcome A) : sends P (lift (W:=W) o).
Proof. apply sends_nothing. reflexivity. Qed.

Lemma sends_subscript (arguments : dict) (key : string) :
  sends P (subscript (W:=W) arguments key).
Proof.
  unfold subscript. destruct (dict_get key arguments); [apply sends_ret|apply sends_raise].
Qed.

Lemma sends_connect : sends P connect.
Proof.
  unfold connect. apply sends_try.
  - apply sends_bind.
    + intros st r st' H. unfold new_server in H.
      destruct (server_new (url st) (world st)) as [[[]|e] w1]; inversion H; subst;
        simpl; exists [ReqServer (url st)]; (split; [reflexivity|]);
        simpl; now rewrite P_connect.
    + intros s. apply sends_bind; [apply sends_nothing; reflexivity|intros _].
      apply sends_bind; [apply sends_call; now apply P_connect|intros _].
      apply sends_ret.
  - intros e. apply sends_bind; [apply sends_nothing; reflexivity|intros u].
    apply sends_raise.
Qed.

Lemma sends_get_server : sends P _get_server.
Proof.
  unfold _get_server.
  apply sends_bind; [apply sends_nothing; reflexivity|intros c].
  apply sends_bind.
  - destruct c; [apply sends_ret|].
    apply sends_bind; [apply sends_connect|intros _; apply sends_ret].
  - intros _. apply sends_bind; [apply sends_nothing; reflexivity|intros c'].
    destruct c'; [apply sends_ret|apply sends_raise].
Qed.

Lemma sends_get_database (database : json) :
  (forall s, P (ReqGetitem s database) = true) -> sends P (get_database database).
Proof.
  intros H. unfold get_database.
  apply sends_bind; [apply sends_get_server|intros s].
  apply sends_bind; [apply sends_call; apply H|intros _]. apply sends_ret.
Qed.

End Traffic.

(** One step of a proof about the requests of a handler. *)
Ltac sends_step :=
  first
    [ apply sends_ret | apply sends_raise | apply sends_lift | apply sends_subscript
    | apply sends_get_server; assumption
    | apply sends_get_database; [assumption|intros ?; reflexivity]
    | apply sends_call; reflexivity
    | apply sends_try; [|intros ?]
    | apply sends_bind; [|intros ?]
    | match goal with
      | |- sends _ (match ?x with _ => _ end) => destruct x
      end ].

(** X17.  The five reading tools never write: whatever the arguments and
    the driver's answers, a call of [list_databases], [get_document],
    [search_documents], [list_documents] or [list_indexes] sends no request
    that creates or deletes a database, saves or deletes a document or
    posts to anything but the query endpoint. *)
Theorem reading_tools_never_write
  {W : Type} {drv : Driver W} {py : Python}
  (name : string) (arguments : dict) (st : state W) :
  In name read_only_tools ->
  exists l,
    log (snd (call_tool name arguments st)) = (log st ++ l)%list
    /\ forallb (fun r => negb (is_write r)) l = true.
Proof.
  intros Hin.
  assert (C : forall r, is_connect r = true -> negb (is_write r) = true).
  { intros [] H; try discriminate H; reflexivity. }
  assert (F : forall a b c d,
             sends (fun r => negb (is_write r)) (_search_documents_fallback a b c d)).
  { intros. unfold _search_documents_fallback. repeat sends_step. }
  assert (S : sends (fun r => negb (is_write r)) (call_tool name arguments)).
  { unfold call_tool. apply sends_try; [|intros e; apply sends_ret].
    unfold read_only_tools in Hin.
    repeat (destruct Hin as [<-|Hin]); try contradiction;
      unfold dispatch; cbn [String.eqb Ascii.eqb Bool.eqb];
      unfold _list_databases, _get_document, _search_documents, _list_documents,
        _list_indexes;
      repeat sends_step; apply F. }
  destruct (call_tool name arguments st) as [r st'] eqn:E.
  exact (S st r st' E).
Qed.

Lemma reading_tools_never_write_witness :
  exists l,
    log (snd (call_tool "couchdb_search_documents" Sample.search_args
                (init Sample.url0 Sample.remote_old_driver)))
    = (log (init Sample.url0 Sample.remote_old_driver) ++ l)%list
    /\ forallb (fun r => negb (is_write r)) l = true.
Proof.
  apply (reading_tools_never_write "couchdb_search_documents" Sample.search_args
           (init Sample.url0 Sample.remote_old_driver)).
  simpl. tauto.
Defined.

Section Bounds.

Context {W : Type} {drv : Driver W} {py : Python}.

Lemma data_requests_app (l1 l2 : list request) :
  data_requests (l1 ++ l2) = (data_requests l1 ++ data_requests l2)%list.
Proof. unfold data_requests. apply filter_app. Qed.

Lemma at_most_silent {A : Type} (n : nat) (m : M W A) :
  (forall st, log (snd (m st)) = log st) -> at_most n m.
Proof.
  intros H st r st' E. exists []. rewrite app_nil_r.
  specialize (H st). rewrite E in H. simpl in H. split; [exact H|simpl; lia].
Qed.

Lemma at_most_weaken {A : Type} (n k : nat) (m : M W A) :
  n <= k -> at_most n m -> at_most k m.
Proof.
  intros Hle H st r st' E. destruct (H st r st' E) as [l [Hl Hn]].
  exists l. split; [exact Hl|lia].
Qed.

Lemma at_most_bind (n k : nat) (A B : Type) (m : M W A) (f : A -> M W B) :
  at_most n m -> (forall a, at_most k (f a)) -> at_most (n + k) (bind m f).
Proof.
  intros Hm Hk st r st' H. unfold bind in H.
  destruct (m st) as [[a|e] st1] eqn:E.
  - destruct (Hm _ _ _ E) as [l1 [Hl1 Hq1]].
    destruct (Hk a _ _ _ H) as [l2 [Hl2 Hq2]].
    exists (l1 ++ l2)%list. rewrite Hl2, Hl1, app_assoc. split; [reflexivity|].
    rewrite data_requests_app, length_app. lia.
  - inversion H; subst. destruct (Hm _ _ _ E) as [l1 [Hl1 Hq1]].
    exists l1. split; [exact Hl1|lia].
Qed.

Lemma at_most_try (n k : nat) (A : Type) (body : M W A) (handler : exn -> M W A) :
  at_most n body -> (forall e, at_most k (handler e)) ->
  at_most (n + k) (try_except body handler).
Proof.
  intros Hm Hk st r st' H. unfold try_except in H.
  destruct (body st) as [[a|e] st1] eqn:E.
  - inversion H; subst. destruct (Hm _ _ _ E) as [l1 [Hl1 Hq1]].
    exists l1. split; [exact Hl1|lia].
  - destruct (Hm _ _ _ E) as [l1 [Hl1 Hq1]].
    destruct (Hk e _ _ _ H) as [l2 [Hl2 Hq2]].
    exists (l1 ++ l2)%list. rewrite Hl2, Hl1, app_assoc. split; [reflexivity|].
    rewrite data_requests_app, length_app. lia.
Qed.

Lemma at_most_call (A : Type) (r : request) (op : W -> outcome A * W) :
  at_most 1 (call r op).
Proof.
  intros st res st' H. unfold call in H.
  destruct (op (world st)) as [res' w']. inversion H; subst. simpl.
  exists [r]. split; [reflexivity|]. unfold data_requests. simpl.
  destruct (is_connect r); simpl; lia.
Qed.

Lemma at_most_connect : at_most 0 connect.
Proof.
  intros st r st' H.
  destruct (sends_connect is_connect (fun r H => H) st r st' H) as [l [Hl Hq]].
  exists l. split; [exact Hl|].
  unfold data_requests. clear - Hq. induction l as [|x l IH]; simpl in *; [lia|].
  apply andb_true_iff in Hq. destruct Hq as [Hx Hq]. rewrite Hx. simpl.
  exact (IH Hq).
Qed.

Lemma at_most_get_server : at_most 0 _get_server.
Proof.
  unfold _get_server.
  apply (at_most_bind 0 0); [apply at_most_silent; reflexivity|intros c].
  apply (at_most_bind 0 0).
  - destruct c; [apply at_most_silent; reflexivity|].
    apply (at_most_bind 0 0); [apply at_most_connect|intros _].
    apply at_most_silent; reflexivity.
  - intros _. apply (at_most_bind 0 0); [apply at_most_silent; reflexivity|intros c'].
    destruct c'; apply at_most_silent; reflexivity.
Qed.

(** Opening a database costs one request, and so does every further step
    of a handler that is a driver call. *)
Lemma at_most_open (n : nat) (A : Type) (database : json) (f : Database -> M W A) :
  (forall db, at_most n (f db)) -> at_most (S n) (bind (get_database database) f).
Proof.
  intros H. apply (at_most_bind 1 n); [|exact H].
  unfold get_database.
  apply (at_most_bind 0 1); [apply at_most_get_server|intros s].
  apply (at_most_bind 1 0); [apply at_most_call|intros _].
  apply at_most_silent; reflexivity.
Qed.

Lemma at_most_step (n : nat) (A B : Type) (r : request) (op : W -> outcome A * W)
  (f : A -> M W B) :
  (forall a, at_most n (f a)) -> at_most (S n) (bind (call r op) f).
Proof. intros H. apply (at_most_bind 1 n); [apply at_most_call|exact H]. Qed.

Lemma at_most_free (n : nat) (A B : Type) (m : M W A) (f : A -> M W B) :
  at_most 0 m -> (forall a, at_most n (f a)) -> at_most n (bind m f).
Proof. intros Hm H. apply (at_most_bind 0 n); assumption. Qed.

Lemma at_most_done (n : nat) (A : Type) (a : A) : at_most n (ret (W:=W) a).
Proof. apply at_most_silent. reflexivity. Qed.

Lemma at_most_raise (n : nat) (A : Type) (e : exn) : at_most n (raise (W:=W) (A:=A) e).
Proof. apply at_most_silent. reflexivity. Qed.

Lemma at_most_lift (n : nat) (A : Type) (o : outcome A) : at_most n (lift (W:=W) o).
Proof. apply at_most_silent. reflexivity. Qed.

Lemma at_most_subscript (n : nat) (arguments : dict) (key : string) :
  at_most n (subscript (W:=W) arguments key).
Proof.
  unfold subscript. destruct (dict_get key arguments);
    apply at_most_silent; reflexivity.
Qed.

(** A handler whose [except] clauses send nothing. *)
Lemma at_most_guarded (n : nat) (A : Type) (body : M W A) (handler : exn -> M W A) :
  at_most n body -> (forall e, at_most 0 (handler e)) ->
  at_most n (try_except body handler).
Proof.
  intros Hb Hh. apply (at_most_weaken (n + 0) n); [lia|].
  apply at_most_try; assumption.
Qed.

End Bounds.

(** One step of a proof that bounds the requests of a handler. *)
Ltac at_most_step_tac :=
  first
    [ apply at_most_done | apply at_most_raise
    | apply at_most_open; intros ?
    | apply at_most_step; intros ?
    | apply at_most_free;
      [first [apply at_most_lift | apply at_most_get_server | apply at_most_subscript]
      |intros ?]
    | apply at_most_guarded; [|intros ?]
    | match goal with
      | |- at_most _ (match ?x with _ => _ end) => destruct x
      end ].

(** X18.  No tool call retries or loops: besides the requests of a
    connection attempt, a call sends at most four requests, and at most two
    unless it is a search (whose fallback opens the database and asks
    again). *)
Theorem tool_call_request_bound
  {W : Type} {drv : Driver W} {py : Python}
  (name : string) (arguments : dict) (st : state W) :
  exists l,
    log (snd (call_tool name arguments st)) = (log st ++ l)%list
    /\ List.length (data_requests l) <= 4
    /\ (name <> "couchdb_search_documents" -> List.length (data_requests l) <= 2).
Proof.
  assert (F : forall a b c d, at_most 2 (_search_documents_fallback a b c d)).
  { intros. unfold _search_documents_fallback. repeat at_most_step_tac. }
  assert (S4 : forall a b c d, at_most 4 (_search_documents a b c d)).
  { intros. unfold _search_documents. apply (at_most_try 2 2).
    - repeat at_most_step_tac.
    - intros e. destruct (exn_cls e); try apply F; apply at_most_done. }
  assert (H2 : name <> "couchdb_search_documents" ->
               at_most 2 (dispatch name arguments)).
  { intros Hne. unfold dispatch.
    repeat match goal with
           | |- at_most _ (if ?b then _ else _) => destruct b eqn:?
           end;
      try (exfalso; apply Hne; now apply String.eqb_eq);
      unfold _list_databases, _create_database, _delete_database, _create_document,
        _get_document, _update_document, _delete_document, _list_documents,
        _create_index, _list_indexes;
      repeat at_most_step_tac. }
  assert (H4 : at_most 4 (dispatch name arguments)).
  { destruct (String.eqb name "couchdb_search_documents") eqn:E.
    - apply String.eqb_eq in E. subst name. unfold dispatch.
      cbn [String.eqb Ascii.eqb Bool.eqb].
      repeat (apply at_most_free; [apply at_most_subscript|intros ?]). apply S4.
    - apply (at_most_weaken 2 4); [lia|]. apply H2. now apply String.eqb_neq. }
  rewrite call_tool_state.
  destruct (dispatch name arguments st) as [r st'] eqn:E.
  destruct (H4 st r st' E) as [l [Hl Hn]].
  exists l. split; [exact Hl|split; [exact Hn|]].
  intros Hne. destruct (H2 Hne st r st' E) as [l' [Hl' Hn']].
  simpl in Hl, Hl'. rewrite Hl in Hl'. apply app_inv_head in Hl'. now subst l'.
Qed.

Lemma tool_call_request_bound_witness :
  exists l,
    log (snd (call_tool "couchdb_search_documents" Sample.search_args
                (init Sample.url0 Sample.remote_old_driver)))
    = (log (init Sample.url0 Sample.remote_old_driver) ++ l)%list
    /\ List.length (data_requests l) <= 4
    /\ ("couchdb_search_documents" <> "couchdb_search_documents" ->
        List.length (data_requests l) <= 2).
Proof.
  exact (tool_call_request_bound "couchdb_search_documents" Sample.search_args
           (init Sample.url0 Sample.remote_old_driver)).
Defined.

Lemma serve_answers_every_call_witness :
  fst (serve [("couchdb_compact", []); ("couchdb_list_databases", [])]
         (Sample.connected Sample.remote0))
  = Ok [[text_block "Error: Unknown tool: couchdb_compact"];
        [text_block
           (json_dumps (JObj [("databases", JArr [JStr "notes"]); ("count", JNum 1)]))]].
Proof.
  apply (proj2 (proj2 (serve_answers_every_call
                         [("couchdb_compact", [])] [("couchdb_list_databases", [])]
                         (Sample.connected Sample.remote0)))
           [[text_block "Error: Unknown tool: couchdb_compact"]]
           [[text_block
               (json_dumps (JObj [("databases", JArr [JStr "notes"]);
                                  ("count", JNum 1)]))]]);
    reflexivity.
Defined.

(** X19.  [create_document] with a [doc_id] and a document that is not a
    JSON object, on a database that opens: building [{"_id": doc_id,
    **document}] fails, nothing is saved, and the output is "Error creating
    document: '<type>' object is not a mapping".  Without a [doc_id] the
    value is handed to [db.save] as it is. *)
Theorem create_document_needs_a_mapping
  {W : Type} {drv : Driver W} {py : Python}
  (arguments : dict) (database document : json) (st st1 : state W) (db : Database) :
  dict_get "database" arguments = Some database ->
  dict_get "document" arguments = Some document ->
  get_database database st = (Ok db, st1) ->
  (forall d, document <> JObj d) ->
  (truthy (dict_get_default "doc_id" JNull arguments) = true ->
   call_tool "couchdb_create_document" arguments st
   = (Ok [text_block ("Error creating document: '" ++ type_name document
                      ++ "' object is not a mapping")], st1))
  /\ (truthy (dict_get_default "doc_id" JNull arguments) = false ->
      exists r w2,
        call_tool "couchdb_create_document" arguments st
        = (Ok r, after_call st1 (ReqSave db document) w2)).
Proof.
  intros Hd Hdoc Hdb Hnot. split; intros Ht.
  - apply call_tool_passes. rewrite (dispatch_create_document arguments _ _ Hd Hdoc).
    unfold _create_document, try_except. unfold bind at 1. rewrite Hdb.
    unfold bind at 1. unfold lift, create_payload. rewrite Ht.
    destruct document as [| | | | |d]; try reflexivity.
    exfalso. exact (Hnot d eq_refl).
  - assert (Hp : create_payload document (dict_get_default "doc_id" JNull arguments)
                 = Ok document).
    { unfold create_payload. now rewrite Ht. }
    destruct (database_save db document (world st1)) as [res w2] eqn:Hs.
    pose proof (create_document_saved _ _ _ st st1 db document res w2 Hdb Hp Hs) as R.
    destruct res as [saved|e]; eexists; exists w2; apply call_tool_passes;
      rewrite (dispatch_create_document arguments _ _ Hd Hdoc); exact R.
Qed.

Lemma create_document_needs_a_mapping_witness :
  call_tool "couchdb_create_document"
    [("database", JStr "notes"); ("document", JArr []); ("doc_id", JStr "a")]
    (Sample.connected Sample.remote0)
  = (Ok [text_block "Error creating document: 'list' object is not a mapping"],
     after_call (Sample.connected Sample.remote0)
       (ReqGetitem Sample.srv (JStr "notes")) Sample.remote0).
Proof.
  refine (proj1 (create_document_needs_a_mapping
                   [("database", JStr "notes"); ("document", JArr []);
                    ("doc_id", JStr "a")]
                   (JStr "notes") (JArr [])
                   (Sample.connected Sample.remote0)
                   (after_call (Sample.connected Sample.remote0)
                      (ReqGetitem Sample.srv (JStr "notes")) Sample.remote0)
                   Sample.db _ _ _ _) _);
    try reflexivity.
  intros d H. discriminate H.
Defined.

(** X20.  The fallback search has one answer to every failure: when the
    database does not open, whatever the class of the exception, a
    [KeyError] included, or when the raw request fails, the output is
    "Error in fallback search: <str(e)>"; there is no "Database ... not
    found" on this path. *)
Theorem search_fallback_failures
  {W : Type} {drv : Driver W} {py : Python}
  (database query limit skip : json) (st : state W) :
  (forall e st1,
      get_database database st = (Raise e, st1) ->
      _search_documents_fallback database query limit skip st
      = (Ok [text_block ("Error in fallback search: " ++ exn_str e)], st1))
  /\ (forall db st1 e w2,
        get_database database st = (Ok db, st1) ->
        resource_post_json db "_find" (mango_query query limit skip) (world st1)
        = (Raise e, w2) ->
        _search_documents_fallback database query limit skip st
        = (Ok [text_block ("Error in fallback search: " ++ exn_str e)],
           after_call st1 (ReqPostJson db "_find" (mango_query query limit skip)) w2)).
Proof.
  split.
  - intros e st1 H. unfold _search_documents_fallback, try_except.
    unfold bind at 1. rewrite H. reflexivity.
  - intros db st1 e w2 H Hp. unfold _search_documents_fallback, try_except.
    unfold bind at 1. rewrite H. unfold bind at 1. unfold call. rewrite Hp.
    reflexivity.
Qed.

Lemma search_fallback_failures_witness :
  _search_documents_fallback (drv := keyed_driver)
    (JStr "nowhere") (JObj []) (JNum 25) (JNum 0) (Sample.connected Sample.remote0)
  = (Ok [text_block "Error in fallback search: 'nowhere'"],
     after_call (Sample.connected Sample.remote0)
       (ReqGetitem Sample.srv (JStr "nowhere")) Sample.remote0).
Proof.
  apply (proj1 (search_fallback_failures (drv := keyed_driver)
                  (JStr "nowhere") (JObj []) (JNum 25) (JNum 0)
                  (Sample.connected Sample.remote0))
           (Exn KeyError "'nowhere'")).
  reflexivity.
Defined.
